(** * home-mcp: command dispatch and safe invocation

    A shallow embedding of [src/index.ts]: the two helpers that build and run
    command lines ([runAppleScript], [runShortcut]) and the handler registered
    for [CallToolRequestSchema].

    Conventions of the embedding.
    - A JavaScript string is a [string]: the sequence of its UTF-8 bytes.
    - [execSync] is the only effect.  A computation is a function of the
      outcome the environment gives to each command line; it returns a value
      or a thrown error, together with the command lines it ran, in order.
    - The handler is embedded twice.  [Handler.callTool] takes arguments at
      the types the handler casts them to ([args as { ... }]), with integer
      temperatures and the case mapping and white space of the ASCII range.
      [Request.handleRequest] takes the request as it arrives: the arguments
      and each of their members may be absent, a number is known by the text
      a template literal prints for it, and [toLowerCase], [trim] and the
      messages of [TypeError] are those of an engine [E]. *)

From Stdlib Require Import Bool List ZArith Lia.
From Stdlib Require Import Strings.Ascii Strings.String Numbers.DecimalString.
Import ListNotations.

Local Open Scope list_scope.
Local Open Scope string_scope.

(** ** Characters and strings *)

Module Js.

Definition squote : ascii := "'"%char.
Definition dquote : ascii := "034"%char.
Definition newline : ascii := "010"%char.

Definition str1 (c : ascii) : string := String c EmptyString.

(** The line feed and the double quote as one-character strings. *)
Definition nl : string := str1 newline.
Definition dq : string := str1 dquote.

(** Truthiness of a string: every string but the empty one. *)
Definition nonEmpty (s : string) : bool :=
  match s with
  | EmptyString => false
  | String _ _ => true
  end.

(** [o ? a(o) : b] for [o] of type [string | undefined]. *)
Definition ifTruthy {A : Type} (o : option string) (a : string -> A) (b : A)
  : A :=
  match o with
  | Some s => if nonEmpty s then a s else b
  | None => b
  end.

(** [`${n}`] for an integer [n]. *)
Definition numberToString (n : Z) : string :=
  NilZero.string_of_int (Z.to_int n).

(** [c] is white space for [String.prototype.trim] (ASCII range). *)
Definition isWhiteSpace (c : ascii) : bool :=
  let n := nat_of_ascii c in
  ((9 <=? n) && (n <=? 13))%nat || (n =? 32)%nat.

Fixpoint trimStart (s : string) : string :=
  match s with
  | EmptyString => EmptyString
  | String c r => if isWhiteSpace c then trimStart r else s
  end.

(** [trimEnd] keeps a character when it is not white space or when
    something remains after it. *)
Fixpoint trimEnd (s : string) : string :=
  match s with
  | EmptyString => EmptyString
  | String c r =>
      match trimEnd r with
      | EmptyString => if isWhiteSpace c then EmptyString else str1 c
      | r' => String c r'
      end
  end.

Definition trim (s : string) : string := trimEnd (trimStart s).

Definition lowerChar (c : ascii) : ascii :=
  let n := nat_of_ascii c in
  if ((65 <=? n) && (n <=? 90))%nat then ascii_of_nat (n + 32) else c.

Fixpoint toLowerCase (s : string) : string :=
  match s with
  | EmptyString => EmptyString
  | String c r => String (lowerChar c) (toLowerCase r)
  end.

(** [s.includes(p)]: [p] starts at some position of [s]. *)
Fixpoint includes (s p : string) : bool :=
  prefix p s ||
  match s with
  | EmptyString => false
  | String _ r => includes r p
  end.

(** [s.split] at line feeds; the current piece is accumulated in [cur]. *)
Fixpoint splitLinesFrom (cur s : string) : list string :=
  match s with
  | EmptyString => [cur]
  | String c r =>
      if Ascii.eqb c newline then cur :: splitLinesFrom EmptyString r
      else splitLinesFrom (cur ++ str1 c) r
  end.

Definition splitLines (s : string) : list string :=
  splitLinesFrom EmptyString s.

(** [xs.join] with line feeds. *)
Fixpoint joinLines (xs : list string) : string :=
  match xs with
  | [] => EmptyString
  | [x] => x
  | x :: r => x ++ nl ++ joinLines r
  end.

(** The number of times [c] occurs in [s]. *)
Fixpoint occurrences (c : ascii) (s : string) : nat :=
  match s with
  | EmptyString => 0
  | String d r => (if Ascii.eqb d c then 1 else 0) + occurrences c r
  end.

End Js.

(** ** Quoting and command lines *)

Module Quote.
Import Js.

(** The replacement text of the [replace] calls: close the quote, a
    double-quoted single quote, reopen the quote (five characters). *)
Definition replacement : string :=
  String squote (String dquote (String squote (String dquote (str1 squote)))).

(** [s.replace(/'/g, replacement)]: every single quote is replaced. *)
Fixpoint escapeQuotes (s : string) : string :=
  match s with
  | EmptyString => EmptyString
  | String c r =>
      if Ascii.eqb c squote then replacement ++ escapeQuotes r
      else String c (escapeQuotes r)
  end.

(** The escaped text between single quotes: the fragment both helpers
    splice into a command line. *)
Definition quote (s : string) : string :=
  str1 squote ++ escapeQuotes s ++ str1 squote.

(** The command line of [runAppleScript]. *)
Definition appleScriptCommand (script : string) : string :=
  "osascript -e " ++ quote script.

(** [inputPart] of [runShortcut]: empty unless [input] is truthy. *)
Definition inputPart (input : option string) : string :=
  ifTruthy input (fun i => " -i " ++ quote i) EmptyString.

(** The command line of [runShortcut]. *)
Definition shortcutCommand (name : string) (input : option string) : string :=
  "shortcuts run " ++ quote name ++ inputPart input.

(** The input [runShortcut] passes on: a truthy one, or none. *)
Definition passedInput (input : option string) : option string :=
  ifTruthy input Some None.

End Quote.

(** ** A reader of shell words

    The quoting rules of the POSIX shell command language (section 2.2):
    a backslash outside quotes keeps the next character (a backslash and a
    newline vanish together); single quotes keep every character up to the
    next single quote; double quotes keep every character except the dollar
    sign, the backquote and the backslash, and there a backslash escapes
    only a dollar sign, backquote, double quote, backslash or newline.
    The reader accepts one simple command made of literal words: an
    unquoted operator, line feed, expansion or pattern character makes it
    give up. *)

Module Shell.
Import Js.

Inductive mode : Type :=
| Bare        (* outside quotes *)
| BareEsc     (* outside quotes, after a backslash *)
| Single      (* inside single quotes *)
| Double      (* inside double quotes *)
| DoubleEsc.  (* inside double quotes, after a backslash *)

(** A blank separates words: space or tab. *)
Definition isBlank (c : ascii) : bool :=
  let n := nat_of_ascii c in
  (n =? 32)%nat || (n =? 9)%nat.

(** Characters that an unquoted literal word cannot hold.  The line feed is
    one of them: outside quotes it ends the command. *)
Definition isSpecial (c : ascii) : bool :=
  existsb (Ascii.eqb c)
    ["|"; "&"; ";"; "<"; ">"; "("; ")"; "$"; "`"; "*"; "?"; "["; "#"; "~";
     "="; "%"; "!"; "{"; "}"; newline]%char.

(** Characters a backslash escapes inside double quotes (newline apart). *)
Definition isDoubleEscapable (c : ascii) : bool :=
  existsb (Ascii.eqb c) ["$"; "`"; dquote; "\"]%char.

Definition push (cur : option string) (c : ascii) : option string :=
  match cur with
  | None => Some (str1 c)
  | Some w => Some (w ++ str1 c)
  end.

(** Entering quotes starts a word, even an empty one. *)
Definition start (cur : option string) : option string :=
  match cur with
  | None => Some EmptyString
  | Some w => Some w
  end.

Definition flush (cur : option string) (ws : list string) : list string :=
  match cur with
  | None => ws
  | Some w => w :: ws
  end.

(** [words m cur src]: the words of [src], read in mode [m] with the word
    in progress [cur]. *)
Fixpoint words (m : mode) (cur : option string) (src : string)
  : option (list string) :=
  match src with
  | EmptyString =>
      match m with
      | Bare => Some (flush cur [])
      | _ => None
      end
  | String c r =>
      match m with
      | Bare =>
          if Ascii.eqb c squote then words Single (start cur) r
          else if Ascii.eqb c dquote then words Double (start cur) r
          else if Ascii.eqb c "\"%char then words BareEsc cur r
          else if isBlank c then option_map (flush cur) (words Bare None r)
          else if isSpecial c then None
          else words Bare (push cur c) r
      | BareEsc =>
          if Ascii.eqb c newline then words Bare cur r
          else words Bare (push cur c) r
      | Single =>
          if Ascii.eqb c squote then words Bare cur r
          else words Single (push cur c) r
      | Double =>
          if Ascii.eqb c dquote then words Bare cur r
          else if Ascii.eqb c "\"%char then words DoubleEsc cur r
          else if Ascii.eqb c "$"%char || Ascii.eqb c "`"%char then None
          else words Double (push cur c) r
      | DoubleEsc =>
          if isDoubleEscapable c then words Double (push cur c) r
          else if Ascii.eqb c newline then words Double cur r
          else words Double (push (push cur "\"%char) c) r
      end
  end.

(** The argument vector of a command line. *)
Definition argv (src : string) : option (list string) :=
  words Bare None src.

(** The value of a fragment that is one literal word. *)
Definition literal (src : string) : option string :=
  match argv src with
  | Some [w] => Some w
  | _ => None
  end.

End Shell.

(** ** Running commands

    [execSync] either returns the standard output of the command or throws
    an error object that has a [message] and, when the process wrote to its
    error stream, a [stderr].  What it does for a command line is given by
    the environment. *)

Module Exec.
Import Js Quote.

Record JsError : Type := mkError {
  message : string;
  stderr : option string
}.

(** [new Error(msg)]. *)
Definition newError (msg : string) : JsError :=
  {| message := msg; stderr := None |}.

Inductive outcome : Type :=
| Returns (stdout : string)
| Throws (e : JsError).

Definition env : Type := string -> outcome.

Inductive result (A : Type) : Type :=
| Ok (a : A)
| Thrown (e : JsError).
Arguments Ok {A} a.
Arguments Thrown {A} e.

(** A computation: its result and the command lines it ran, in order. *)
Definition M (A : Type) : Type := env -> result A * list string.

Definition ret {A : Type} (a : A) : M A := fun _ => (Ok a, []).

Definition throw {A : Type} (e : JsError) : M A := fun _ => (Thrown e, []).

Definition bind {A B : Type} (m : M A) (k : A -> M B) : M B :=
  fun ex =>
    match m ex with
    | (Ok a, t) => let (r, t') := k a ex in (r, (t ++ t')%list)
    | (Thrown e, t) => (Thrown e, t)
    end.

(** [try { m } catch (e) { h(e) }]. *)
Definition tryCatch {A : Type} (m : M A) (h : JsError -> M A) : M A :=
  fun ex =>
    match m ex with
    | (Ok a, t) => (Ok a, t)
    | (Thrown e, t) => let (r, t') := h e ex in (r, (t ++ t')%list)
    end.

Definition execSync (command : string) : M string :=
  fun ex =>
    match ex command with
    | Returns out => (Ok out, [command])
    | Throws e => (Thrown e, [command])
    end.

Notation "x <- m ;; k" := (bind m (fun x => k))
  (at level 61, m at next level, right associativity).

(** [err.stderr || err.message]. *)
Definition diagnostic (err : JsError) : string :=
  match stderr err with
  | Some s => if nonEmpty s then s else message err
  | None => message err
  end.

Definition runAppleScript (script : string) : M string :=
  tryCatch
    (out <- execSync (appleScriptCommand script) ;; ret (trim out))
    (fun err => throw (newError ("AppleScript error: " ++ diagnostic err))).

Definition runShortcut (name : string) (input : option string) : M string :=
  tryCatch
    (out <- execSync (shortcutCommand name input) ;; ret (trim out))
    (fun err => throw (newError ("Shortcut error: " ++ diagnostic err))).

End Exec.

(** ** The tool handler *)

Module Handler.
Import Js Quote Exec.

Record TextContent : Type := mkText {
  type : string;
  text : string
}.

Record ToolResponse : Type := mkResponse {
  content : list TextContent;
  isError : option bool
}.

(** [{ content: [{ type: "text", text: t }] }]. *)
Definition textResponse (t : string) : ToolResponse :=
  {| content := [ {| type := "text"; text := t |} ]; isError := None |}.

(** [{ content: [{ type: "text", text: t }], isError: true }]. *)
Definition errorResponse (t : string) : ToolResponse :=
  {| content := [ {| type := "text"; text := t |} ]; isError := Some true |}.

(** The fields the handler reads from [request.params.arguments]. *)
Record Arguments : Type := mkArguments {
  scene : string;
  shortcutName : string;
  action : option string;
  filter : option string;
  room : option string;
  temperature : Z;
  unit : option string
}.

Inductive tool : Type :=
| home_open
| home_run_scene
| home_control_device
| home_list_shortcuts
| home_lights_on
| home_lights_off
| home_set_thermostat
| home_lock_doors
| home_unlock_doors
| home_get_status.

Definition allTools : list tool :=
  [home_open; home_run_scene; home_control_device; home_list_shortcuts;
   home_lights_on; home_lights_off; home_set_thermostat; home_lock_doors;
   home_unlock_doors; home_get_status].

Definition toolName (t : tool) : string :=
  match t with
  | home_open => "home_open"
  | home_run_scene => "home_run_scene"
  | home_control_device => "home_control_device"
  | home_list_shortcuts => "home_list_shortcuts"
  | home_lights_on => "home_lights_on"
  | home_lights_off => "home_lights_off"
  | home_set_thermostat => "home_set_thermostat"
  | home_lock_doors => "home_lock_doors"
  | home_unlock_doors => "home_unlock_doors"
  | home_get_status => "home_get_status"
  end.

(** The ten names of the catalogue. *)
Definition toolNames : list string := map toolName allTools.

(** The [case] label that [switch (name)] selects, if any. *)
Definition toolOfName (name : string) : option tool :=
  find (fun t => String.eqb name (toolName t)) allTools.

Definition activateHome : string :=
  "tell application " ++ dq ++ "Home" ++ dq ++ " to activate".

(** The keywords of the listing when no filter is in force. *)
Definition homeKeywords : list string :=
  ["light"; "home"; "scene"; "lock"; "thermostat"; "door"; "room"].

(** [shortcuts]: the lines of the listing that are not blank. *)
Definition shortcutLines (result : string) : list string :=
  List.filter (fun s => nonEmpty (trim s)) (splitLines result).

(** [homeRelated], for the lower-cased filter [flt]. *)
Definition homeRelated (flt : option string) (shortcuts : list string)
  : list string :=
  ifTruthy flt
    (fun f => List.filter (fun s => includes (toLowerCase s) f) shortcuts)
    (List.filter
       (fun s => existsb (includes (toLowerCase s)) homeKeywords)
       shortcuts).

Definition noneFoundText (flt : option string) : string :=
  ifTruthy flt
    (fun f => "No shortcuts found matching: " ++ f)
    "No Home-related shortcuts found. Create Shortcuts in the Shortcuts app to control your Home devices.".

Definition siri : string :=
  nl ++ nl ++ "Alternatively, you can say to Siri: ".

(** [unit === 'celsius' ? 'C' : 'F']. *)
Definition unitLetter (u : string) : string :=
  if String.eqb u "celsius" then "C" else "F".

(** [`${temperature} degrees ${unit}`]. *)
Definition tempStr (t : Z) (u : string) : string :=
  numberToString t ++ " degrees " ++ u.

Definition listShortcuts (args : Arguments) : M ToolResponse :=
  let flt := option_map toLowerCase (filter args) in
  tryCatch
    (result <- execSync "shortcuts list" ;;
     let shortcuts := shortcutLines result in
     let related := homeRelated flt shortcuts in
     if (List.length related =? 0)%nat
     then ret (textResponse (noneFoundText flt))
     else ret (textResponse
                 ("Available Shortcuts:" ++ nl ++ joinLines related)))
    (fun _ =>
       ret (errorResponse
              "Error listing shortcuts. Make sure Shortcuts app is available.")).

Definition lightsOn (args : Arguments) : M ToolResponse :=
  let room := room args in
  let command :=
    ifTruthy room (fun r => "turn on " ++ r ++ " lights") "turn on the lights" in
  tryCatch
    (let shortcutName := ifTruthy room (fun r => r ++ " Lights On") "Lights On" in
     _ <- runShortcut shortcutName None ;;
     ret (textResponse
            ("Lights on" ++ ifTruthy room (fun r => " in " ++ r) EmptyString)))
    (fun _ =>
       ret (textResponse
              ("To turn on lights"
               ++ ifTruthy room (fun r => " in " ++ r) EmptyString
               ++ ", create a Shortcut named " ++ dq
               ++ ifTruthy room (fun r => r ++ " Lights On") "Lights On"
               ++ dq ++ " that controls your HomeKit lights."
               ++ siri ++ dq ++ command ++ dq))).

Definition lightsOff (args : Arguments) : M ToolResponse :=
  let room := room args in
  let command :=
    ifTruthy room (fun r => "turn off " ++ r ++ " lights")
      "turn off the lights" in
  tryCatch
    (let shortcutName :=
       ifTruthy room (fun r => r ++ " Lights Off") "Lights Off" in
     _ <- runShortcut shortcutName None ;;
     ret (textResponse
            ("Lights off" ++ ifTruthy room (fun r => " in " ++ r) EmptyString)))
    (fun _ =>
       ret (textResponse
              ("To turn off lights"
               ++ ifTruthy room (fun r => " in " ++ r) EmptyString
               ++ ", create a Shortcut named " ++ dq
               ++ ifTruthy room (fun r => r ++ " Lights Off") "Lights Off"
               ++ dq ++ " that controls your HomeKit lights."
               ++ siri ++ dq ++ command ++ dq))).

Definition setThermostat (args : Arguments) : M ToolResponse :=
  let temperature := temperature args in
  let unit := match unit args with Some u => u | None => "fahrenheit" end in
  let tempStr := tempStr temperature unit in
  tryCatch
    (_ <- runShortcut "Set Thermostat" (Some tempStr) ;;
     ret (textResponse
            ("Thermostat set to " ++ numberToString temperature ++ "°"
             ++ unitLetter unit)))
    (fun _ =>
       ret (textResponse
              ("To set thermostat to " ++ numberToString temperature ++ "°"
               ++ unitLetter unit
               ++ ", create a Shortcut named " ++ dq ++ "Set Thermostat" ++ dq
               ++ " that controls your HomeKit thermostat."
               ++ siri ++ dq ++ "Set the thermostat to " ++ tempStr ++ dq))).

(** The body of the [case] for tool [t]. *)
Definition handleCase (t : tool) (args : Arguments) : M ToolResponse :=
  match t with
  | home_open =>
      _ <- runAppleScript activateHome ;;
      ret (textResponse "Home app opened")
  | home_run_scene =>
      let scene := scene args in
      tryCatch
        (_ <- runShortcut scene None ;;
         ret (textResponse ("Activated scene: " ++ scene)))
        (fun _ =>
           ret (textResponse
                  ("To run scene " ++ dq ++ scene ++ dq
                   ++ ", please create a Shortcut with that name that activates the HomeKit scene.")))
  | home_control_device =>
      let shortcutName := shortcutName args in
      let action := action args in
      tryCatch
        (_ <- runShortcut shortcutName action ;;
         ret (textResponse
                ("Executed shortcut: " ++ shortcutName
                 ++ ifTruthy action (fun a => " with action: " ++ a)
                      EmptyString)))
        (fun error =>
           ret (errorResponse
                  ("Error running shortcut " ++ dq ++ shortcutName ++ dq
                   ++ ": " ++ message error)))
  | home_list_shortcuts => listShortcuts args
  | home_lights_on => lightsOn args
  | home_lights_off => lightsOff args
  | home_set_thermostat => setThermostat args
  | home_lock_doors =>
      tryCatch
        (_ <- runShortcut "Lock Doors" None ;;
         ret (textResponse "Doors locked"))
        (fun _ =>
           ret (textResponse
                  ("To lock doors, create a Shortcut named " ++ dq
                   ++ "Lock Doors" ++ dq
                   ++ " that controls your HomeKit locks."
                   ++ siri ++ dq ++ "Lock all doors" ++ dq)))
  | home_unlock_doors =>
      tryCatch
        (_ <- runShortcut "Unlock Doors" None ;;
         ret (textResponse "Doors unlocked"))
        (fun _ =>
           ret (textResponse
                  ("To unlock doors, create a Shortcut named " ++ dq
                   ++ "Unlock Doors" ++ dq
                   ++ " that controls your HomeKit locks."
                   ++ siri ++ dq ++ "Unlock all doors" ++ dq)))
  | home_get_status =>
      _ <- runAppleScript activateHome ;;
      ret (textResponse
             "Home app opened. Note: HomeKit device status is not accessible via AppleScript. View status in the Home app.")
  end.

(** The handler registered for [CallToolRequestSchema]: the [switch] on the
    name, inside the outer [try]. *)
Definition callTool (name : string) (args : Arguments) : M ToolResponse :=
  tryCatch
    (match toolOfName name with
     | Some t => handleCase t args
     | None => ret (errorResponse ("Unknown tool: " ++ name))
     end)
    (fun error => ret (errorResponse ("Error: " ++ message error))).

(** ** Texts of the answers, named for the statements below *)

Definition lightsOnName (room : option string) : string :=
  ifTruthy room (fun r => r ++ " Lights On") "Lights On".

Definition lightsOnAdvice (room : option string) : string :=
  "To turn on lights" ++ ifTruthy room (fun r => " in " ++ r) EmptyString
  ++ ", create a Shortcut named " ++ dq ++ lightsOnName room ++ dq
  ++ " that controls your HomeKit lights." ++ siri ++ dq
  ++ ifTruthy room (fun r => "turn on " ++ r ++ " lights") "turn on the lights"
  ++ dq.

Definition unitOrDefault (u : option string) : string :=
  match u with Some u => u | None => "fahrenheit" end.

Definition thermostatAdvice (t : Z) (u : string) : string :=
  "To set thermostat to " ++ numberToString t ++ "°" ++ unitLetter u
  ++ ", create a Shortcut named " ++ dq ++ "Set Thermostat" ++ dq
  ++ " that controls your HomeKit thermostat." ++ siri ++ dq
  ++ "Set the thermostat to " ++ tempStr t u ++ dq.

(** The answer of the listing to the output [out] of [shortcuts list]. *)
Definition listingResponse (flt : option string) (out : string)
  : ToolResponse :=
  match homeRelated flt (shortcutLines out) with
  | [] => textResponse (noneFoundText flt)
  | related =>
      textResponse ("Available Shortcuts:" ++ nl ++ joinLines related)
  end.


(** The command lines the handler builds: the fixed script, the listing,
    or a run of [runShortcut]. *)
Definition builtCommand (cmd : string) : Prop :=
  cmd = appleScriptCommand activateHome
  \/ cmd = "shortcuts list"
  \/ exists (n : string) (i : option string), cmd = shortcutCommand n i.

(** ** Updating one field of the arguments *)

Definition withAction (a : option string) (args : Arguments) : Arguments :=
  {| scene := scene args; shortcutName := shortcutName args; action := a;
     filter := filter args; room := room args;
     temperature := temperature args; unit := unit args |}.

Definition withFilter (f : option string) (args : Arguments) : Arguments :=
  {| scene := scene args; shortcutName := shortcutName args;
     action := action args; filter := f; room := room args;
     temperature := temperature args; unit := unit args |}.

Definition withRoom (r : option string) (args : Arguments) : Arguments :=
  {| scene := scene args; shortcutName := shortcutName args;
     action := action args; filter := filter args; room := r;
     temperature := temperature args; unit := unit args |}.

Definition withThermostat (t : Z) (u : option string) (args : Arguments)
  : Arguments :=
  {| scene := scene args; shortcutName := shortcutName args;
     action := action args; filter := filter args; room := room args;
     temperature := t; unit := u |}.

End Handler.


(** ** The string operations of the engine

    [String.prototype.toLowerCase] and [String.prototype.trim] follow the
    Unicode tables of the engine, and the message of a [TypeError] is the
    engine's own.  The handler of a request takes them from an engine [E]:
    any functions that leave only the empty string empty when lower-casing
    and that agree, on ASCII text, with the ASCII functions of [Js]. *)

Module Engine.

Fixpoint isAscii (s : string) : bool :=
  match s with
  | EmptyString => true
  | String c r => (nat_of_ascii c <? 128)%nat && isAscii r
  end.

Record t : Type := make {
  toLowerCase : string -> string;
  trim : string -> string;
  (** The message of the [TypeError] raised by reading [what] from
      [undefined]. *)
  typeError : string -> string;
  toLowerCase_empty :
    forall s : string, toLowerCase s = EmptyString <-> s = EmptyString;
  toLowerCase_ascii :
    forall s : string, isAscii s = true -> toLowerCase s = Js.toLowerCase s;
  trim_ascii :
    forall s : string, isAscii s = true -> trim s = Js.trim s
}.

Definition asciiLower_empty (s : string) :
  Js.toLowerCase s = EmptyString <-> s = EmptyString.
Proof. destruct s; simpl; split; congruence. Qed.

(** An engine for ASCII text, with messages in the manner of V8. *)
Definition ascii : t :=
  {| toLowerCase := Js.toLowerCase;
     trim := Js.trim;
     typeError :=
       fun what =>
         "Cannot read properties of undefined (reading '" ++ what ++ "')";
     toLowerCase_empty := asciiLower_empty;
     toLowerCase_ascii := fun s _ => eq_refl;
     trim_ascii := fun s _ => eq_refl |}.

End Engine.

(** ** The handler of a request, arguments as they arrive

    [request.params.arguments] may be absent, and so may each of its
    members; a number is known to the handler by the text that a template
    literal prints for it. *)

Module Request.
Import Js Quote Exec Handler.

(** A JavaScript number: [print n] is the text of [`${n}`]. *)
Record number : Type := Number { print : string }.

Record Arguments : Type := mkArguments {
  scene : option string;
  shortcutName : option string;
  action : option string;
  filter : option string;
  room : option string;
  temperature : option number;
  unit : option string
}.

(** [{}]. *)
Definition noArguments : Arguments :=
  mkArguments None None None None None None None.

(** [`${v}`] for [v] of type [string | undefined]. *)
Definition template (v : option string) : string :=
  match v with
  | Some s => s
  | None => "undefined"
  end.

(** [`${v}`] for [v] of type [number | undefined]. *)
Definition templateNumber (v : option number) : string :=
  match v with
  | Some n => print n
  | None => "undefined"
  end.

(** Reading the member [what] of [args]: a [TypeError] when [args] is
    [undefined]. *)
Definition member {A : Type} (E : Engine.t) (args : option Arguments)
    (what : string) (get : Arguments -> A) : M A :=
  match args with
  | Some a => ret (get a)
  | None => throw (newError (Engine.typeError E what))
  end.

Definition runAppleScript (E : Engine.t) (script : string) : M string :=
  tryCatch
    (out <- execSync (appleScriptCommand script) ;; ret (Engine.trim E out))
    (fun err => throw (newError ("AppleScript error: " ++ diagnostic err))).

(** [name.replace] raises a [TypeError], inside the [try], when [name] is
    [undefined]. *)
Definition runShortcut (E : Engine.t) (name : option string)
    (input : option string) : M string :=
  tryCatch
    (match name with
     | None => throw (newError (Engine.typeError E "replace"))
     | Some n =>
         out <- execSync (shortcutCommand n input) ;; ret (Engine.trim E out)
     end)
    (fun err => throw (newError ("Shortcut error: " ++ diagnostic err))).

Definition shortcutLines (E : Engine.t) (result : string) : list string :=
  List.filter (fun s => nonEmpty (Engine.trim E s)) (splitLines result).

Definition homeRelated (E : Engine.t) (flt : option string)
    (shortcuts : list string) : list string :=
  ifTruthy flt
    (fun f =>
       List.filter (fun s => includes (Engine.toLowerCase E s) f) shortcuts)
    (List.filter
       (fun s => existsb (includes (Engine.toLowerCase E s)) homeKeywords)
       shortcuts).

Definition listShortcuts (E : Engine.t) (args : option Arguments)
  : M ToolResponse :=
  f <- member E args "filter" filter ;;
  let flt := option_map (Engine.toLowerCase E) f in
  tryCatch
    (result <- execSync "shortcuts list" ;;
     let shortcuts := shortcutLines E result in
     let related := homeRelated E flt shortcuts in
     if (List.length related =? 0)%nat
     then ret (textResponse (noneFoundText flt))
     else ret (textResponse
                 ("Available Shortcuts:" ++ nl ++ joinLines related)))
    (fun _ =>
       ret (errorResponse
              "Error listing shortcuts. Make sure Shortcuts app is available.")).

Definition lightsOn (E : Engine.t) (args : option Arguments)
  : M ToolResponse :=
  room <- member E args "room" room ;;
  let command :=
    ifTruthy room (fun r => "turn on " ++ r ++ " lights") "turn on the lights" in
  tryCatch
    (let shortcutName := ifTruthy room (fun r => r ++ " Lights On") "Lights On" in
     _ <- runShortcut E (Some shortcutName) None ;;
     ret (textResponse
            ("Lights on" ++ ifTruthy room (fun r => " in " ++ r) EmptyString)))
    (fun _ =>
       ret (textResponse
              ("To turn on lights"
               ++ ifTruthy room (fun r => " in " ++ r) EmptyString
               ++ ", create a Shortcut named " ++ dq
               ++ ifTruthy room (fun r => r ++ " Lights On") "Lights On"
               ++ dq ++ " that controls your HomeKit lights."
               ++ siri ++ dq ++ command ++ dq))).

Definition lightsOff (E : Engine.t) (args : option Arguments)
  : M ToolResponse :=
  room <- member E args "room" room ;;
  let command :=
    ifTruthy room (fun r => "turn off " ++ r ++ " lights")
      "turn off the lights" in
  tryCatch
    (let shortcutName :=
       ifTruthy room (fun r => r ++ " Lights Off") "Lights Off" in
     _ <- runShortcut E (Some shortcutName) None ;;
     ret (textResponse
            ("Lights off" ++ ifTruthy room (fun r => " in " ++ r) EmptyString)))
    (fun _ =>
       ret (textResponse
              ("To turn off lights"
               ++ ifTruthy room (fun r => " in " ++ r) EmptyString
               ++ ", create a Shortcut named " ++ dq
               ++ ifTruthy room (fun r => r ++ " Lights Off") "Lights Off"
               ++ dq ++ " that controls your HomeKit lights."
               ++ siri ++ dq ++ command ++ dq))).

(** The destructuring reads [temperature] first; [unit] has its default. *)
Definition setThermostat (E : Engine.t) (args : option Arguments)
  : M ToolResponse :=
  temperature <- member E args "temperature" temperature ;;
  u <- member E args "unit" unit ;;
  let unit := match u with Some u => u | None => "fahrenheit" end in
  let tempStr := templateNumber temperature ++ " degrees " ++ unit in
  tryCatch
    (_ <- runShortcut E (Some "Set Thermostat") (Some tempStr) ;;
     ret (textResponse
            ("Thermostat set to " ++ templateNumber temperature ++ "°"
             ++ unitLetter unit)))
    (fun _ =>
       ret (textResponse
              ("To set thermostat to " ++ templateNumber temperature ++ "°"
               ++ unitLetter unit
               ++ ", create a Shortcut named " ++ dq ++ "Set Thermostat" ++ dq
               ++ " that controls your HomeKit thermostat."
               ++ siri ++ dq ++ "Set the thermostat to " ++ tempStr ++ dq))).

(** The body of the [case] for tool [t]. *)
Definition handleCase (E : Engine.t) (t : tool) (args : option Arguments)
  : M ToolResponse :=
  match t with
  | home_open =>
      _ <- runAppleScript E activateHome ;;
      ret (textResponse "Home app opened")
  | home_run_scene =>
      scene <- member E args "scene" scene ;;
      tryCatch
        (_ <- runShortcut E scene None ;;
         ret (textResponse ("Activated scene: " ++ template scene)))
        (fun _ =>
           ret (textResponse
                  ("To run scene " ++ dq ++ template scene ++ dq
                   ++ ", please create a Shortcut with that name that activates the HomeKit scene.")))
  | home_control_device =>
      shortcutName <- member E args "shortcutName" shortcutName ;;
      action <- member E args "action" action ;;
      tryCatch
        (_ <- runShortcut E shortcutName action ;;
         ret (textResponse
                ("Executed shortcut: " ++ template shortcutName
                 ++ ifTruthy action (fun a => " with action: " ++ a)
                      EmptyString)))
        (fun error =>
           ret (errorResponse
                  ("Error running shortcut " ++ dq ++ template shortcutName
                   ++ dq ++ ": " ++ message error)))
  | home_list_shortcuts => listShortcuts E args
  | home_lights_on => lightsOn E args
  | home_lights_off => lightsOff E args
  | home_set_thermostat => setThermostat E args
  | home_lock_doors =>
      tryCatch
        (_ <- runShortcut E (Some "Lock Doors") None ;;
         ret (textResponse "Doors locked"))
        (fun _ =>
           ret (textResponse
                  ("To lock doors, create a Shortcut named " ++ dq
                   ++ "Lock Doors" ++ dq
                   ++ " that controls your HomeKit locks."
                   ++ siri ++ dq ++ "Lock all doors" ++ dq)))
  | home_unlock_doors =>
      tryCatch
        (_ <- runShortcut E (Some "Unlock Doors") None ;;
         ret (textResponse "Doors unlocked"))
        (fun _ =>
           ret (textResponse
                  ("To unlock doors, create a Shortcut named " ++ dq
                   ++ "Unlock Doors" ++ dq
                   ++ " that controls your HomeKit locks."
                   ++ siri ++ dq ++ "Unlock all doors" ++ dq)))
  | home_get_status =>
      _ <- runAppleScript E activateHome ;;
      ret (textResponse
             "Home app opened. Note: HomeKit device status is not accessible via AppleScript. View status in the Home app.")
  end.

(** The handler registered for [CallToolRequestSchema], on the request as
    it arrives: the [switch] on the name, inside the outer [try]. *)
Definition handleRequest (E : Engine.t) (name : string)
    (args : option Arguments) : M ToolResponse :=
  tryCatch
    (match toolOfName name with
     | Some t => handleCase E t args
     | None => ret (errorResponse ("Unknown tool: " ++ name))
     end)
    (fun error => ret (errorResponse ("Error: " ++ message error))).

(** The arguments [a] with [temperature: n] and the unit [u]. *)
Definition withThermostat (n : number) (u : option string) (a : Arguments)
  : Arguments :=
  {| scene := scene a; shortcutName := shortcutName a; action := action a;
     filter := filter a; room := room a; temperature := Some n; unit := u |}.

(** The arguments [a] with the filter [f]. *)
Definition withFilter (f : option string) (a : Arguments) : Arguments :=
  {| scene := scene a; shortcutName := shortcutName a; action := action a;
     filter := f; room := room a; temperature := temperature a;
     unit := unit a |}.

(** The outcome of a case that runs one command, in the shape shared by all
    the cases. *)
Definition outcomeOf (ex : env) (cmd : string) (good : string -> string)
    (bad : JsError -> string) (flag : option bool)
  : result ToolResponse * list string :=
  (Ok match ex cmd with
      | Returns o => textResponse (good o)
      | Throws e =>
          {| content := [ {| type := "text"; text := bad e |} ];
             isError := flag |}
      end,
   [cmd]).

End Request.

(** ** How a request ends *)

Module Ending.
Import Js Quote Exec Handler.

(** The two ways a request ends: without a command, or after one. *)
Definition withoutCommand (E : Engine.t) (name : string)
    (args : option Request.Arguments) : Prop :=
  exists (txt : string) (flag : option bool),
    (forall ex : env,
       Request.handleRequest E name args ex
       = (Ok {| content := [ {| type := "text"; text := txt |} ];
                isError := flag |},
          []))
    /\ txt <> EmptyString
    /\ (flag = None \/ flag = Some true).

Definition afterCommand (E : Engine.t) (name : string)
    (args : option Request.Arguments) : Prop :=
  exists (cmd : string) (good : string -> string) (bad : JsError -> string)
         (flag : option bool),
    (forall ex : env,
       Request.handleRequest E name args ex
       = Request.outcomeOf ex cmd good bad flag)
    /\ builtCommand cmd
    /\ (flag = None \/ flag = Some true)
    /\ (forall o : string, good o <> EmptyString)
    /\ (forall e : JsError, bad e <> EmptyString).

End Ending.

(** ** The catalogue of tools

    The answer of the handler registered for [ListToolsRequestSchema]. *)

Module Catalogue.

Module Property.

(** One entry of [properties]: its [type], its [enum] when it has one, and
    its [description]. *)
Record t : Type := make {
  type : string;
  enum : option (list string);
  description : string
}.

End Property.

Record InputSchema : Type := mkSchema {
  type : string;
  properties : list (string * Property.t);
  required : list string
}.

Record ToolDefinition : Type := mkTool {
  name : string;
  description : string;
  inputSchema : InputSchema
}.

(** [{ type: "object", properties: {}, required: [] }]. *)
Definition noInput : InputSchema :=
  {| type := "object"; properties := []; required := [] |}.

Definition stringProperty (d : string) : Property.t :=
  Property.make "string" None d.

Definition tools : list ToolDefinition :=
  [ {| name := "home_open";
       description := "Open the Home app";
       inputSchema := noInput |};
    {| name := "home_run_scene";
       description := "Run a HomeKit scene by name (uses Shortcuts)";
       inputSchema :=
         {| type := "object";
            properties :=
              [ ("scene",
                 stringProperty
                   "Scene name to run (e.g., 'Good Morning', 'Movie Time')") ];
            required := ["scene"] |} |};
    {| name := "home_control_device";
       description :=
         "Control a HomeKit device (requires a Shortcut set up for the device)";
       inputSchema :=
         {| type := "object";
            properties :=
              [ ("shortcutName",
                 stringProperty
                   "Name of the Shortcut that controls the device");
                ("action",
                 stringProperty
                   "Action to perform (passed as input to the shortcut)") ];
            required := ["shortcutName"] |} |};
    {| name := "home_list_shortcuts";
       description :=
         "List available Shortcuts that may be related to Home control";
       inputSchema :=
         {| type := "object";
            properties :=
              [ ("filter",
                 stringProperty "Filter shortcuts by name (optional)") ];
            required := [] |} |};
    {| name := "home_lights_on";
       description := "Turn on lights (requires 'Lights On' shortcut)";
       inputSchema :=
         {| type := "object";
            properties :=
              [ ("room",
                 stringProperty
                   "Room name (optional, e.g., 'living room', 'bedroom')") ];
            required := [] |} |};
    {| name := "home_lights_off";
       description := "Turn off lights (requires 'Lights Off' shortcut)";
       inputSchema :=
         {| type := "object";
            properties :=
              [ ("room",
                 stringProperty
                   "Room name (optional, e.g., 'living room', 'bedroom')") ];
            required := [] |} |};
    {| name := "home_set_thermostat";
       description :=
         "Set thermostat temperature (requires 'Set Thermostat' shortcut)";
       inputSchema :=
         {| type := "object";
            properties :=
              [ ("temperature",
                 Property.make "number" None "Temperature to set");
                ("unit",
                 Property.make "string" (Some ["fahrenheit"; "celsius"])
                   "Temperature unit (default: fahrenheit)") ];
            required := ["temperature"] |} |};
    {| name := "home_lock_doors";
       description := "Lock all doors (requires 'Lock Doors' shortcut)";
       inputSchema := noInput |};
    {| name := "home_unlock_doors";
       description := "Unlock all doors (requires 'Unlock Doors' shortcut)";
       inputSchema := noInput |};
    {| name := "home_get_status";
       description :=
         "Open Home app to view device status (limited API access)";
       inputSchema := noInput |} ].

(** A value of [request.params.arguments]. *)
Inductive value : Type :=
| VString (s : string)
| VNumber (n : Z)
| VUndefined.

Definition ofOption (o : option string) : value :=
  match o with
  | Some s => VString s
  | None => VUndefined
  end.

(** [args[key]]. *)
Definition get (key : string) (args : Handler.Arguments) : value :=
  if String.eqb key "scene" then VString (Handler.scene args)
  else if String.eqb key "shortcutName" then
    VString (Handler.shortcutName args)
  else if String.eqb key "action" then ofOption (Handler.action args)
  else if String.eqb key "filter" then ofOption (Handler.filter args)
  else if String.eqb key "room" then ofOption (Handler.room args)
  else if String.eqb key "temperature" then
    VNumber (Handler.temperature args)
  else if String.eqb key "unit" then ofOption (Handler.unit args)
  else VUndefined.

(** The names of the properties a tool declares. *)
Definition declared (d : ToolDefinition) : list string :=
  map fst (properties (inputSchema d)).

End Catalogue.

(** ** The copy of the handler in the test file

    [handleToolCall] of the test file repeats the handler case by case; its
    thermostat case builds its two texts without the degree sign, and its
    other cases have the texts of [handleCase]. *)

Module TestCopy.
Import Js Quote Exec Handler.

Definition setThermostat (args : Arguments) : M ToolResponse :=
  let temperature := temperature args in
  let unit := match unit args with Some u => u | None => "fahrenheit" end in
  let tempStr := tempStr temperature unit in
  tryCatch
    (_ <- runShortcut "Set Thermostat" (Some tempStr) ;;
     ret (textResponse
            ("Thermostat set to " ++ numberToString temperature
             ++ unitLetter unit)))
    (fun _ =>
       ret (textResponse
              ("To set thermostat to " ++ numberToString temperature
               ++ unitLetter unit
               ++ ", create a Shortcut named " ++ dq ++ "Set Thermostat" ++ dq
               ++ " that controls your HomeKit thermostat."
               ++ siri ++ dq ++ "Set the thermostat to " ++ tempStr ++ dq))).

Definition handleToolCall (name : string) (args : Arguments)
  : M ToolResponse :=
  tryCatch
    (match toolOfName name with
     | Some home_set_thermostat => setThermostat args
     | Some t => handleCase t args
     | None => ret (errorResponse ("Unknown tool: " ++ name))
     end)
    (fun error => ret (errorResponse ("Error: " ++ message error))).

End TestCopy.

(** ** The test file, on the request as it arrives

    [runAppleScript], [runShortcut] and [handleToolCall] as the test file
    writes them (lines 494 to 783).  [handleToolCall] gives its [args] the
    default [{}], so it reads members of an object in every case. *)

Module TestFile.
Import Js Quote Exec Handler.

Definition runAppleScript (E : Engine.t) (script : string) : M string :=
  tryCatch
    (out <- execSync (appleScriptCommand script) ;; ret (Engine.trim E out))
    (fun err => throw (newError ("AppleScript error: " ++ diagnostic err))).

Definition runShortcut (E : Engine.t) (name : option string)
    (input : option string) : M string :=
  tryCatch
    (match name with
     | None => throw (newError (Engine.typeError E "replace"))
     | Some n =>
         out <- execSync (shortcutCommand n input) ;; ret (Engine.trim E out)
     end)
    (fun err => throw (newError ("Shortcut error: " ++ diagnostic err))).

Definition handleToolCall (E : Engine.t) (name : string)
    (args : option Request.Arguments) : M ToolResponse :=
  let args := match args with Some a => a | None => Request.noArguments end in
  tryCatch
    (if String.eqb name "home_open" then
       _ <- runAppleScript E
              ("tell application " ++ dq ++ "Home" ++ dq ++ " to activate") ;;
       ret (textResponse "Home app opened")
     else if String.eqb name "home_run_scene" then
       let scene := Request.scene args in
       tryCatch
         (_ <- runShortcut E scene None ;;
          ret (textResponse ("Activated scene: " ++ Request.template scene)))
         (fun _ =>
            ret (textResponse
                   ("To run scene " ++ dq ++ Request.template scene ++ dq
                    ++ ", please create a Shortcut with that name that activates the HomeKit scene.")))
     else if String.eqb name "home_control_device" then
       let shortcutName := Request.shortcutName args in
       let action := Request.action args in
       tryCatch
         (_ <- runShortcut E shortcutName action ;;
          ret (textResponse
                 ("Executed shortcut: " ++ Request.template shortcutName
                  ++ ifTruthy action (fun a => " with action: " ++ a)
                       EmptyString)))
         (fun error =>
            ret (errorResponse
                   ("Error running shortcut " ++ dq
                    ++ Request.template shortcutName ++ dq ++ ": "
                    ++ message error)))
     else if String.eqb name "home_list_shortcuts" then
       let filter :=
         option_map (Engine.toLowerCase E) (Request.filter args) in
       tryCatch
         (result <- execSync "shortcuts list" ;;
          let shortcuts :=
            List.filter (fun s => nonEmpty (Engine.trim E s))
              (splitLines result) in
          let homeRelated :=
            ifTruthy filter
              (fun f =>
                 List.filter
                   (fun s => includes (Engine.toLowerCase E s) f) shortcuts)
              (List.filter
                 (fun s =>
                    includes (Engine.toLowerCase E s) "light"
                    || includes (Engine.toLowerCase E s) "home"
                    || includes (Engine.toLowerCase E s) "scene"
                    || includes (Engine.toLowerCase E s) "lock"
                    || includes (Engine.toLowerCase E s) "thermostat"
                    || includes (Engine.toLowerCase E s) "door"
                    || includes (Engine.toLowerCase E s) "room")
                 shortcuts) in
          if (List.length homeRelated =? 0)%nat
          then
            ret (textResponse
                   (ifTruthy filter
                      (fun f => "No shortcuts found matching: " ++ f)
                      "No Home-related shortcuts found. Create Shortcuts in the Shortcuts app to control your Home devices."))
          else
            ret (textResponse
                   ("Available Shortcuts:" ++ nl ++ joinLines homeRelated)))
         (fun _ =>
            ret (errorResponse
                   "Error listing shortcuts. Make sure Shortcuts app is available."))
     else if String.eqb name "home_lights_on" then
       let room := Request.room args in
       let command :=
         ifTruthy room (fun r => "turn on " ++ r ++ " lights")
           "turn on the lights" in
       tryCatch
         (let shortcutName :=
            ifTruthy room (fun r => r ++ " Lights On") "Lights On" in
          _ <- runShortcut E (Some shortcutName) None ;;
          ret (textResponse
                 ("Lights on"
                  ++ ifTruthy room (fun r => " in " ++ r) EmptyString)))
         (fun _ =>
            ret (textResponse
                   ("To turn on lights"
                    ++ ifTruthy room (fun r => " in " ++ r) EmptyString
                    ++ ", create a Shortcut named " ++ dq
                    ++ ifTruthy room (fun r => r ++ " Lights On") "Lights On"
                    ++ dq ++ " that controls your HomeKit lights."
                    ++ nl ++ nl ++ "Alternatively, you can say to Siri: "
                    ++ dq ++ command ++ dq)))
     else if String.eqb name "home_lights_off" then
       let room := Request.room args in
       let command :=
         ifTruthy room (fun r => "turn off " ++ r ++ " lights")
           "turn off the lights" in
       tryCatch
         (let shortcutName :=
            ifTruthy room (fun r => r ++ " Lights Off") "Lights Off" in
          _ <- runShortcut E (Some shortcutName) None ;;
          ret (textResponse
                 ("Lights off"
                  ++ ifTruthy room (fun r => " in " ++ r) EmptyString)))
         (fun _ =>
            ret (textResponse
                   ("To turn off lights"
                    ++ ifTruthy room (fun r => " in " ++ r) EmptyString
                    ++ ", create a Shortcut named " ++ dq
                    ++ ifTruthy room (fun r => r ++ " Lights Off")
                         "Lights Off"
                    ++ dq ++ " that controls your HomeKit lights."
                    ++ nl ++ nl ++ "Alternatively, you can say to Siri: "
                    ++ dq ++ command ++ dq)))
     else if String.eqb name "home_set_thermostat" then
       let temperature := Request.temperature args in
       let unit :=
         match Request.unit args with Some u => u | None => "fahrenheit" end in
       let tempStr :=
         Request.templateNumber temperature ++ " degrees " ++ unit in
       tryCatch
         (_ <- runShortcut E (Some "Set Thermostat") (Some tempStr) ;;
          ret (textResponse
                 ("Thermostat set to " ++ Request.templateNumber temperature
                  ++ (if String.eqb unit "celsius" then "C" else "F"))))
         (fun _ =>
            ret (textResponse
                   ("To set thermostat to "
                    ++ Request.templateNumber temperature
                    ++ (if String.eqb unit "celsius" then "C" else "F")
                    ++ ", create a Shortcut named " ++ dq ++ "Set Thermostat"
                    ++ dq ++ " that controls your HomeKit thermostat."
                    ++ nl ++ nl ++ "Alternatively, you can say to Siri: "
                    ++ dq ++ "Set the thermostat to " ++ tempStr ++ dq)))
     else if String.eqb name "home_lock_doors" then
       tryCatch
         (_ <- runShortcut E (Some "Lock Doors") None ;;
          ret (textResponse "Doors locked"))
         (fun _ =>
            ret (textResponse
                   ("To lock doors, create a Shortcut named " ++ dq
                    ++ "Lock Doors" ++ dq
                    ++ " that controls your HomeKit locks."
                    ++ nl ++ nl ++ "Alternatively, you can say to Siri: "
                    ++ dq ++ "Lock all doors" ++ dq)))
     else if String.eqb name "home_unlock_doors" then
       tryCatch
         (_ <- runShortcut E (Some "Unlock Doors") None ;;
          ret (textResponse "Doors unlocked"))
         (fun _ =>
            ret (textResponse
                   ("To unlock doors, create a Shortcut named " ++ dq
                    ++ "Unlock Doors" ++ dq
                    ++ " that controls your HomeKit locks."
                    ++ nl ++ nl ++ "Alternatively, you can say to Siri: "
                    ++ dq ++ "Unlock all doors" ++ dq)))
     else if String.eqb name "home_get_status" then
       _ <- runAppleScript E
              ("tell application " ++ dq ++ "Home" ++ dq ++ " to activate") ;;
       ret (textResponse
              "Home app opened. Note: HomeKit device status is not accessible via AppleScript. View status in the Home app.")
     else ret (errorResponse ("Unknown tool: " ++ name)))
    (fun error => ret (errorResponse ("Error: " ++ message error))).

End TestFile.

(** ** Sample requests and environments *)

Module Sample.
Import Js Exec Handler.

Definition args : Arguments :=
  {| scene := "Movie Time"; shortcutName := "Kitchen Light"; action := None;
     filter := None; room := None; temperature := 72; unit := None |}.

(** Every command returns, printing [out]. *)
Definition printing (out : string) : env := fun _ => Returns out.

(** Every command returns and prints nothing. *)
Definition succeeding : env := printing EmptyString.

(** Every command fails, with text on its error stream. *)
Definition failing : env :=
  fun _ =>
    Throws {| message := "Command failed"; stderr := Some "Permission denied" |}.

(** Every command fails to start: no error stream. *)
Definition notSpawned : env :=
  fun _ => Throws {| message := "spawnSync /bin/sh ENOENT"; stderr := None |}.

(** A request whose strings try to end the quoting and add a command. *)
Definition hostile : Arguments :=
  {| scene := "x'; rm -rf /; echo '"; shortcutName := "a' | reboot #";
     action := Some "$(whoami)`id`"; filter := None;
     room := Some "'; shutdown; '"; temperature := 72;
     unit := Some "'; halt" |}.

(** The same strings, as the arguments of a request as it arrives. *)
Definition hostileRequest : Request.Arguments :=
  {| Request.scene := Some "x'; rm -rf /; echo '";
     Request.shortcutName := Some "a' | reboot #";
     Request.action := Some "$(whoami)`id`"; Request.filter := None;
     Request.room := Some "'; shutdown; '";
     Request.temperature := Some (Request.Number "72");
     Request.unit := Some "'; halt" |}.

End Sample.

(** * Properties *)

Import Js Quote Shell Exec Handler.

(** ** Strings *)

Lemma append_assoc (a b c : string) : (a ++ b) ++ c = a ++ (b ++ c).
Proof.
  induction a as [|x a IH]; simpl; [reflexivity | now rewrite IH].
Qed.

Lemma append_nil_r (a : string) : a ++ EmptyString = a.
Proof.
  induction a as [|x a IH]; simpl; [reflexivity | now rewrite IH].
Qed.

Lemma append_snoc (w : string) (c : ascii) (r : string) :
  (w ++ str1 c) ++ r = w ++ String c r.
Proof. now rewrite append_assoc. Qed.

Lemma nonEmpty_append_r (a b : string) :
  nonEmpty b = true -> nonEmpty (a ++ b) = true.
Proof. destruct a; simpl; auto. Qed.

Lemma nonEmpty_false (s : string) : nonEmpty s = false <-> s = EmptyString.
Proof. destruct s; simpl; split; congruence. Qed.



Lemma trimEnd_keeps (c : ascii) (r : string) :
  isWhiteSpace c = false -> nonEmpty (trimEnd (String c r)) = true.
Proof.
  intros H. simpl. rewrite H. destruct (trimEnd r); reflexivity.
Qed.

(** [trim] leaves nothing exactly of the strings made of white space. *)
Lemma trim_blank (s : string) :
  nonEmpty (trim s) = false
  <-> forallb isWhiteSpace (list_ascii_of_string s) = true.
Proof.
  unfold trim. induction s as [|c s IH].
  - simpl. tauto.
  - cbn [trimStart list_ascii_of_string forallb].
    destruct (isWhiteSpace c) eqn:Hc.
    + rewrite IH. simpl. tauto.
    + rewrite (trimEnd_keeps c s Hc). simpl. split; discriminate.
Qed.




(** ** The quoted fragment read back by the shell *)

Lemma quote_append (s rest : string) :
  quote s ++ rest = String squote (escapeQuotes s ++ String squote rest).
Proof.
  unfold quote, str1. simpl. now rewrite append_assoc.
Qed.

(** Inside single quotes the escaped text and the closing quote add exactly
    [s] to the word in progress. *)
Lemma words_escapeQuotes (s : string) :
  forall (w rest : string),
    words Single (Some w) (escapeQuotes s ++ String squote rest)
    = words Bare (Some (w ++ s)) rest.
Proof.
  induction s as [|c s IH]; intros w rest.
  - simpl. now rewrite append_nil_r.
  - simpl escapeQuotes. destruct (Ascii.eqb_spec c squote) as [->|Hc].
    + cbn -[escapeQuotes].
      rewrite IH. now rewrite append_snoc.
    + cbn [append words].
      destruct (Ascii.eqb_spec c squote) as [->|_]; [contradiction|].
      cbn [push]. rewrite IH. now rewrite append_snoc.
Qed.

Lemma words_quote (s : string) (cur : option string) (rest : string) :
  words Bare cur (quote s ++ rest)
  = words Bare (Some (match cur with Some w => w | None => EmptyString end
                      ++ s)) rest.
Proof.
  rewrite quote_append. cbn [words]. cbn -[words escapeQuotes].
  destruct cur as [w|]; cbn [start]; now rewrite words_escapeQuotes.
Qed.

(** The fixed parts of the command lines are plain words. *)

Lemma words_osascript (rest : string) :
  words Bare None ("osascript -e " ++ rest)
  = option_map (fun ws => "osascript" :: "-e" :: ws) (words Bare None rest).
Proof.
  change (words Bare None ("osascript -e " ++ rest))
    with (option_map (flush (Some "osascript"))
            (option_map (flush (Some "-e")) (words Bare None rest))).
  destruct (words Bare None rest); reflexivity.
Qed.

Lemma words_shortcuts_run (rest : string) :
  words Bare None ("shortcuts run " ++ rest)
  = option_map (fun ws => "shortcuts" :: "run" :: ws) (words Bare None rest).
Proof.
  change (words Bare None ("shortcuts run " ++ rest))
    with (option_map (flush (Some "shortcuts"))
            (option_map (flush (Some "run")) (words Bare None rest))).
  destruct (words Bare None rest); reflexivity.
Qed.

Lemma words_input_option (w rest : string) :
  words Bare (Some w) (" -i " ++ rest)
  = option_map (fun ws => w :: "-i" :: ws) (words Bare None rest).
Proof.
  change (words Bare (Some w) (" -i " ++ rest))
    with (option_map (flush (Some w))
            (option_map (flush (Some "-i")) (words Bare None rest))).
  destruct (words Bare None rest); reflexivity.
Qed.

(** The argument vectors of the two command lines. *)

Lemma argv_appleScriptCommand (script : string) :
  argv (appleScriptCommand script) = Some ["osascript"; "-e"; script].
Proof.
  unfold argv, appleScriptCommand.
  rewrite words_osascript.
  rewrite <- (append_nil_r (quote script)), words_quote. reflexivity.
Qed.

Lemma argv_shortcutCommand_name (name : string) :
  argv (shortcutCommand name None) = Some ["shortcuts"; "run"; name].
Proof.
  unfold argv, shortcutCommand. rewrite words_shortcuts_run, words_quote.
  reflexivity.
Qed.

Lemma argv_shortcutCommand_input (name : string) (c : ascii) (i : string) :
  argv (shortcutCommand name (Some (String c i)))
  = Some ["shortcuts"; "run"; name; "-i"; String c i].
Proof.
  unfold argv, shortcutCommand. rewrite words_shortcuts_run, words_quote.
  change (inputPart (Some (String c i))) with (" -i " ++ quote (String c i)).
  rewrite words_input_option.
  rewrite <- (append_nil_r (quote (String c i))), words_quote. reflexivity.
Qed.

Lemma shortcutCommand_input (name i : string) :
  nonEmpty i = true ->
  shortcutCommand name (Some i)
  = "shortcuts run " ++ quote name ++ " -i " ++ quote i.
Proof.
  intros H. unfold shortcutCommand, inputPart, ifTruthy. now rewrite H.
Qed.

Lemma tempStr_nonEmpty (t : Z) (u : string) : nonEmpty (tempStr t u) = true.
Proof.
  unfold tempStr. destruct (numberToString t); reflexivity.
Qed.

(** The command line of the thermostat, with its input. *)
Lemma shortcutCommand_thermostat (t : Z) (u : string) :
  shortcutCommand "Set Thermostat" (Some (tempStr t u))
  = "shortcuts run 'Set Thermostat' -i "
    ++ quote (numberToString t ++ " degrees " ++ u).
Proof.
  rewrite (shortcutCommand_input _ _ (tempStr_nonEmpty t u)). reflexivity.
Qed.

(** An input that is not truthy leaves the command line of [runShortcut]
    without its [-i] part. *)
Lemma shortcutCommand_empty_input (name : string) :
  shortcutCommand name (Some EmptyString) = shortcutCommand name None.
Proof. reflexivity. Qed.

(** ** The helpers, run in an environment *)

Lemma runShortcut_run (name : string) (input : option string) (ex : env) :
  runShortcut name input ex
  = (match ex (shortcutCommand name input) with
     | Returns out => Ok (trim out)
     | Throws e => Thrown (newError ("Shortcut error: " ++ diagnostic e))
     end,
     [shortcutCommand name input]).
Proof.
  unfold runShortcut, tryCatch, bind, execSync, ret, throw.
  destruct (ex (shortcutCommand name input)); reflexivity.
Qed.

Lemma runAppleScript_run (script : string) (ex : env) :
  runAppleScript script ex
  = (match ex (appleScriptCommand script) with
     | Returns out => Ok (trim out)
     | Throws e => Thrown (newError ("AppleScript error: " ++ diagnostic e))
     end,
     [appleScriptCommand script]).
Proof.
  unfold runAppleScript, tryCatch, bind, execSync, ret, throw.
  destruct (ex (appleScriptCommand script)); reflexivity.
Qed.

(** A quick action: run one shortcut, answer [good] when it returns and
    [advice] when it throws; never an error. *)
Lemma quick_action_run (name : string) (input : option string)
    (good advice : string) (ex : env) :
  tryCatch
    (tryCatch (_ <- runShortcut name input ;; ret (textResponse good))
              (fun _ => ret (textResponse advice)))
    (fun error => ret (errorResponse ("Error: " ++ message error))) ex
  = (Ok (textResponse
           match ex (shortcutCommand name input) with
           | Returns _ => good
           | Throws _ => advice
           end),
     [shortcutCommand name input]).
Proof.
  unfold tryCatch at 1 2. unfold bind. rewrite runShortcut_run.
  destruct (ex (shortcutCommand name input)); reflexivity.
Qed.

Lemma toolOfName_toolName (t : tool) : toolOfName (toolName t) = Some t.
Proof. destruct t; reflexivity. Qed.

Lemma toolOfName_Some (name : string) (t : tool) :
  toolOfName name = Some t -> name = toolName t.
Proof.
  unfold toolOfName. intros H. apply find_some in H.
  now apply String.eqb_eq.
Qed.

Lemma toolOfName_None (name : string) :
  ~ In name toolNames -> toolOfName name = None.
Proof.
  intros H. destruct (toolOfName name) as [t|] eqn:E; [|reflexivity].
  apply toolOfName_Some in E. subst name. exfalso. apply H.
  unfold toolNames. apply in_map. destruct t; simpl; auto 12.
Qed.

(** ** Each case of the handler, run in an environment *)

Lemma callTool_toolName (t : tool) (args : Arguments) :
  callTool (toolName t) args
  = tryCatch (handleCase t args)
      (fun error => ret (errorResponse ("Error: " ++ message error))).
Proof. unfold callTool. now rewrite toolOfName_toolName. Qed.

Lemma script_action_run (good : string) (ex : env) :
  tryCatch
    (_ <- runAppleScript activateHome ;; ret (textResponse good))
    (fun error => ret (errorResponse ("Error: " ++ message error))) ex
  = (Ok match ex (appleScriptCommand activateHome) with
        | Returns _ => textResponse good
        | Throws e =>
            errorResponse ("Error: AppleScript error: " ++ diagnostic e)
        end,
     [appleScriptCommand activateHome]).
Proof.
  unfold tryCatch, bind. rewrite runAppleScript_run.
  destruct (ex (appleScriptCommand activateHome)); reflexivity.
Qed.

Lemma callTool_home_open (args : Arguments) (ex : env) :
  callTool "home_open" args ex
  = (Ok match ex (appleScriptCommand activateHome) with
        | Returns _ => textResponse "Home app opened"
        | Throws e =>
            errorResponse ("Error: AppleScript error: " ++ diagnostic e)
        end,
     [appleScriptCommand activateHome]).
Proof. exact (script_action_run _ ex). Qed.

Lemma callTool_home_get_status (args : Arguments) (ex : env) :
  callTool "home_get_status" args ex
  = (Ok match ex (appleScriptCommand activateHome) with
        | Returns _ =>
            textResponse
              "Home app opened. Note: HomeKit device status is not accessible via AppleScript. View status in the Home app."
        | Throws e =>
            errorResponse ("Error: AppleScript error: " ++ diagnostic e)
        end,
     [appleScriptCommand activateHome]).
Proof. exact (script_action_run _ ex). Qed.

Lemma callTool_home_run_scene (args : Arguments) (ex : env) :
  callTool "home_run_scene" args ex
  = (Ok (textResponse
           match ex (shortcutCommand (scene args) None) with
           | Returns _ => "Activated scene: " ++ scene args
           | Throws _ =>
               "To run scene " ++ dq ++ scene args ++ dq
               ++ ", please create a Shortcut with that name that activates the HomeKit scene."
           end),
     [shortcutCommand (scene args) None]).
Proof. exact (quick_action_run _ _ _ _ ex). Qed.

Lemma callTool_home_lights_on (args : Arguments) (ex : env) :
  callTool "home_lights_on" args ex
  = (Ok (textResponse
           match ex (shortcutCommand (lightsOnName (room args)) None) with
           | Returns _ =>
               "Lights on"
               ++ ifTruthy (room args) (fun r => " in " ++ r) EmptyString
           | Throws _ => lightsOnAdvice (room args)
           end),
     [shortcutCommand (lightsOnName (room args)) None]).
Proof. exact (quick_action_run _ _ _ _ ex). Qed.

Lemma callTool_home_lights_off (args : Arguments) (ex : env) :
  let name := ifTruthy (room args) (fun r => r ++ " Lights Off") "Lights Off" in
  exists good advice : string,
    callTool "home_lights_off" args ex
    = (Ok (textResponse
             match ex (shortcutCommand name None) with
             | Returns _ => good
             | Throws _ => advice
             end),
       [shortcutCommand name None]).
Proof. intros name. do 2 eexists. exact (quick_action_run _ _ _ _ ex). Qed.

Lemma callTool_home_lock_doors (args : Arguments) (ex : env) :
  exists advice : string,
    callTool "home_lock_doors" args ex
    = (Ok (textResponse
             match ex (shortcutCommand "Lock Doors" None) with
             | Returns _ => "Doors locked"
             | Throws _ => advice
             end),
       [shortcutCommand "Lock Doors" None]).
Proof. eexists. exact (quick_action_run _ _ _ _ ex). Qed.

Lemma callTool_home_unlock_doors (args : Arguments) (ex : env) :
  exists advice : string,
    callTool "home_unlock_doors" args ex
    = (Ok (textResponse
             match ex (shortcutCommand "Unlock Doors" None) with
             | Returns _ => "Doors unlocked"
             | Throws _ => advice
             end),
       [shortcutCommand "Unlock Doors" None]).
Proof. eexists. exact (quick_action_run _ _ _ _ ex). Qed.

Lemma callTool_home_set_thermostat (args : Arguments) (ex : env) :
  let t := temperature args in
  let u := unitOrDefault (unit args) in
  callTool "home_set_thermostat" args ex
  = (Ok (textResponse
           match ex (shortcutCommand "Set Thermostat" (Some (tempStr t u))) with
           | Returns _ =>
               "Thermostat set to " ++ numberToString t ++ "°" ++ unitLetter u
           | Throws _ => thermostatAdvice t u
           end),
     [shortcutCommand "Set Thermostat" (Some (tempStr t u))]).
Proof. exact (quick_action_run _ _ _ _ ex). Qed.

Lemma callTool_home_control_device (args : Arguments) (ex : env) :
  let name := shortcutName args in
  let cmd := shortcutCommand name (action args) in
  callTool "home_control_device" args ex
  = (Ok match ex cmd with
        | Returns _ =>
            textResponse
              ("Executed shortcut: " ++ name
               ++ ifTruthy (action args) (fun a => " with action: " ++ a)
                    EmptyString)
        | Throws e =>
            errorResponse
              ("Error running shortcut " ++ dq ++ name ++ dq ++ ": "
               ++ "Shortcut error: " ++ diagnostic e)
        end,
     [cmd]).
Proof.
  intros name cmd. unfold callTool.
  change (toolOfName "home_control_device") with (Some home_control_device).
  unfold handleCase. unfold tryCatch, bind. rewrite runShortcut_run.
  fold name. fold cmd. destruct (ex cmd); reflexivity.
Qed.

Lemma callTool_home_list_shortcuts (args : Arguments) (ex : env) :
  callTool "home_list_shortcuts" args ex
  = (Ok match ex "shortcuts list" with
        | Returns out =>
            listingResponse (option_map toLowerCase (filter args)) out
        | Throws _ =>
            errorResponse
              "Error listing shortcuts. Make sure Shortcuts app is available."
        end,
     ["shortcuts list"]).
Proof.
  unfold callTool.
  change (toolOfName "home_list_shortcuts") with (Some home_list_shortcuts).
  unfold handleCase, listShortcuts, tryCatch, bind, execSync.
  destruct (ex "shortcuts list") as [out|e]; [|reflexivity].
  unfold listingResponse.
  destruct (homeRelated _ (shortcutLines out)); reflexivity.
Qed.

(** Every call returns a response made of one text block. *)
Lemma callTool_returns (name : string) (args : Arguments) (ex : env) :
  exists (t : string) (e : option bool) (cmds : list string),
    callTool name args ex
    = (Ok {| content := [ {| type := "text"; text := t |} ]; isError := e |},
       cmds).
Proof.
  destruct (toolOfName name) as [t|] eqn:E.
  - apply toolOfName_Some in E. subst name. destruct t.
    + change (toolName home_open) with "home_open".
      rewrite callTool_home_open.
      destruct (ex _); do 3 eexists; reflexivity.
    + change (toolName home_run_scene) with "home_run_scene".
      rewrite callTool_home_run_scene. do 3 eexists; reflexivity.
    + change (toolName home_control_device) with "home_control_device".
      rewrite callTool_home_control_device.
      destruct (ex _); do 3 eexists; reflexivity.
    + change (toolName home_list_shortcuts) with "home_list_shortcuts".
      rewrite callTool_home_list_shortcuts.
      destruct (ex _) as [out|e]; [|do 3 eexists; reflexivity].
      unfold listingResponse.
      destruct (homeRelated _ _); do 3 eexists; reflexivity.
    + change (toolName home_lights_on) with "home_lights_on".
      rewrite callTool_home_lights_on. do 3 eexists; reflexivity.
    + destruct (callTool_home_lights_off args ex) as (g & a & H).
      change (toolName home_lights_off) with "home_lights_off".
      rewrite H. do 3 eexists; reflexivity.
    + change (toolName home_set_thermostat) with "home_set_thermostat".
      rewrite callTool_home_set_thermostat. do 3 eexists; reflexivity.
    + destruct (callTool_home_lock_doors args ex) as (a & H).
      change (toolName home_lock_doors) with "home_lock_doors".
      rewrite H. do 3 eexists; reflexivity.
    + destruct (callTool_home_unlock_doors args ex) as (a & H).
      change (toolName home_unlock_doors) with "home_unlock_doors".
      rewrite H. do 3 eexists; reflexivity.
    + change (toolName home_get_status) with "home_get_status".
      rewrite callTool_home_get_status.
      destruct (ex _); do 3 eexists; reflexivity.
  - unfold callTool. rewrite E. do 3 eexists; reflexivity.
Qed.

(** The lines of the listing are the pieces of the output that are not
    made of white space only. *)
Lemma shortcutLines_not_blank (out : string) :
  shortcutLines out
  = List.filter
      (fun s => negb (forallb isWhiteSpace (list_ascii_of_string s)))
      (splitLines out).
Proof.
  unfold shortcutLines. apply filter_ext. intros s.
  pose proof (trim_blank s) as H.
  destruct (nonEmpty (trim s)), (forallb isWhiteSpace (list_ascii_of_string s));
    try reflexivity.
  - destruct H as [_ H]. now specialize (H eq_refl).
  - destruct H as [H _]. now specialize (H eq_refl).
Qed.

(** * The claims *)

(** C1.  For every string [s], the fragment built by the quoting
    transformation (single quotes around [s], each single quote of [s]
    replaced by the five characters quote, double quote, quote, double
    quote, quote) is read back by the shell as the one word [s]; and
    the command lines of [runAppleScript] and [runShortcut] are read back
    as the program, its fixed options and the caller's strings, whatever
    those strings hold. *)
Theorem quote_reads_back (s : string) :
  literal (quote s) = Some s
  /\ argv (appleScriptCommand s) = Some ["osascript"; "-e"; s]
  /\ argv (shortcutCommand s None) = Some ["shortcuts"; "run"; s]
  /\ (forall (c : ascii) (i : string),
        argv (shortcutCommand s (Some (String c i)))
        = Some ["shortcuts"; "run"; s; "-i"; String c i]).
Proof.
  repeat split.
  - unfold literal, argv.
    rewrite <- (append_nil_r (quote s)), words_quote. reflexivity.
  - apply argv_appleScriptCommand.
  - apply argv_shortcutCommand_name.
  - intros c i. apply argv_shortcutCommand_input.
Qed.

(** C3.  A request whose name is not one of the ten names of the catalogue
    is answered, without running anything, by an error response whose only
    text block is [Unknown tool: ] followed by the name. *)
Theorem unknown_tool (name : string) (args : Arguments) (ex : env) :
  ~ In name toolNames ->
  callTool name args ex
  = (Ok {| content := [ {| type := "text"; text := "Unknown tool: " ++ name |} ];
           isError := Some true |},
     []).
Proof.
  intros H. unfold callTool. now rewrite (toolOfName_None name H).
Qed.

Lemma unknown_tool_witness :
  callTool "not_a_real_tool" Sample.args Sample.failing
  = (Ok {| content :=
             [ {| type := "text"; text := "Unknown tool: not_a_real_tool" |} ];
           isError := Some true |},
     []).
Proof.
  apply (unknown_tool "not_a_real_tool" Sample.args Sample.failing).
  vm_compute. intuition discriminate.
Defined.

(** C2.  When the command a call runs fails, the response of each of the
    ten operations has [isError] absent exactly for the six quick actions,
    and [isError: true] exactly for the other four. *)
Theorem failure_partition (t : tool) (args : Arguments)
    (failure : string -> JsError) :
  exists (r : ToolResponse) (cmd : string),
    callTool (toolName t) args (fun c => Throws (failure c)) = (Ok r, [cmd])
    /\ (isError r = None
        <-> In (toolName t)
              ["home_run_scene"; "home_lights_on"; "home_lights_off";
               "home_set_thermostat"; "home_lock_doors"; "home_unlock_doors"])
    /\ (isError r = Some true
        <-> In (toolName t)
              ["home_open"; "home_control_device"; "home_list_shortcuts";
               "home_get_status"]).
Proof.
  set (ex := fun c => Throws (failure c)).
  destruct t.
  - change (toolName home_open) with "home_open".
    rewrite callTool_home_open. do 2 eexists. split; [reflexivity|].
    simpl. intuition discriminate.
  - change (toolName home_run_scene) with "home_run_scene".
    rewrite callTool_home_run_scene. do 2 eexists. split; [reflexivity|].
    simpl. intuition discriminate.
  - change (toolName home_control_device) with "home_control_device".
    rewrite callTool_home_control_device. do 2 eexists.
    split; [reflexivity|]. simpl. intuition discriminate.
  - change (toolName home_list_shortcuts) with "home_list_shortcuts".
    rewrite callTool_home_list_shortcuts. do 2 eexists.
    split; [reflexivity|]. simpl. intuition discriminate.
  - change (toolName home_lights_on) with "home_lights_on".
    rewrite callTool_home_lights_on. do 2 eexists. split; [reflexivity|].
    simpl. intuition discriminate.
  - destruct (callTool_home_lights_off args ex) as (g & a & H).
    change (toolName home_lights_off) with "home_lights_off".
    rewrite H. do 2 eexists. split; [reflexivity|].
    simpl. intuition discriminate.
  - change (toolName home_set_thermostat) with "home_set_thermostat".
    rewrite callTool_home_set_thermostat. do 2 eexists.
    split; [reflexivity|]. simpl. intuition discriminate.
  - destruct (callTool_home_lock_doors args ex) as (a & H).
    change (toolName home_lock_doors) with "home_lock_doors".
    rewrite H. do 2 eexists. split; [reflexivity|].
    simpl. intuition discriminate.
  - destruct (callTool_home_unlock_doors args ex) as (a & H).
    change (toolName home_unlock_doors) with "home_unlock_doors".
    rewrite H. do 2 eexists. split; [reflexivity|].
    simpl. intuition discriminate.
  - change (toolName home_get_status) with "home_get_status".
    rewrite callTool_home_get_status. do 2 eexists. split; [reflexivity|].
    simpl. intuition discriminate.
Qed.

(** C9.  For [home_control_device] an action equal to the empty string
    behaves as an absent action: the call runs the same command, which has
    no [-i] part, and gives the same response; on success the text is
    [Executed shortcut: <name>] with nothing after the name. *)
Theorem empty_action_is_absent (args : Arguments) (ex : env) :
  let name := shortcutName args in
  let cmd := "shortcuts run " ++ quote name in
  callTool "home_control_device" (withAction (Some EmptyString) args) ex
  = callTool "home_control_device" (withAction None args) ex
  /\ callTool "home_control_device" (withAction (Some EmptyString) args) ex
     = (Ok match ex cmd with
           | Returns _ =>
               {| content :=
                    [ {| type := "text";
                         text := "Executed shortcut: " ++ name |} ];
                  isError := None |}
           | Throws e =>
               errorResponse
                 ("Error running shortcut " ++ dq ++ name ++ dq ++ ": "
                  ++ "Shortcut error: " ++ diagnostic e)
           end,
        [cmd])
  /\ argv cmd = Some ["shortcuts"; "run"; name].
Proof.
  intros name cmd.
  assert (Hcmd : shortcutCommand name None = cmd).
  { unfold cmd, shortcutCommand, inputPart, ifTruthy.
    now rewrite append_nil_r. }
  pose proof (callTool_home_control_device
                (withAction (Some EmptyString) args) ex) as H1.
  pose proof (callTool_home_control_device (withAction None args) ex) as H0.
  cbv zeta in H1, H0. cbn [withAction shortcutName action] in H1, H0.
  rewrite shortcutCommand_empty_input in H1.
  fold name in H1, H0. rewrite Hcmd in H1, H0.
  unfold ifTruthy, nonEmpty in H1, H0. rewrite append_nil_r in H1, H0.
  split; [|split].
  - now rewrite H1, H0.
  - rewrite H1. destruct (ex cmd); reflexivity.
  - rewrite <- Hcmd. apply argv_shortcutCommand_name.
Qed.

(** C8.  When the command fails, the diagnostic is the text of the error
    stream when there is some, and the message of the failure otherwise.
    [home_control_device] answers with [isError: true] and the text
    [Error running shortcut <name in double quotes>: Shortcut error: ]
    followed by the diagnostic; [home_open] and [home_get_status] answer
    with [isError: true] and [Error: AppleScript error: ] followed by the
    diagnostic. *)
Theorem failure_diagnostic (args : Arguments) (ex : env) (e : JsError) :
  (forall cmd : string, ex cmd = Throws e) ->
  let d :=
    match stderr e with
    | Some (String c s) => String c s
    | Some EmptyString => message e
    | None => message e
    end in
  callTool "home_control_device" args ex
  = (Ok {| content :=
             [ {| type := "text";
                  text :=
                    "Error running shortcut " ++ dq ++ shortcutName args ++ dq
                    ++ ": Shortcut error: " ++ d |} ];
           isError := Some true |},
     [shortcutCommand (shortcutName args) (action args)])
  /\ callTool "home_open" args ex
     = (Ok {| content :=
                [ {| type := "text";
                     text := "Error: AppleScript error: " ++ d |} ];
              isError := Some true |},
        [appleScriptCommand activateHome])
  /\ callTool "home_get_status" args ex
     = (Ok {| content :=
                [ {| type := "text";
                     text := "Error: AppleScript error: " ++ d |} ];
              isError := Some true |},
        [appleScriptCommand activateHome]).
Proof.
  intros Hex d.
  assert (Hd : diagnostic e = d).
  { unfold diagnostic, d. destruct (stderr e) as [[|c s]|]; reflexivity. }
  repeat split.
  - pose proof (callTool_home_control_device args ex) as H.
    cbv zeta in H. rewrite H, Hex, Hd. reflexivity.
  - rewrite callTool_home_open, Hex, Hd. reflexivity.
  - rewrite callTool_home_get_status, Hex, Hd. reflexivity.
Qed.

Lemma failure_diagnostic_witness :
  callTool "home_control_device" Sample.args Sample.failing
  = (Ok {| content :=
             [ {| type := "text";
                  text :=
                    "Error running shortcut " ++ dq ++ "Kitchen Light" ++ dq
                    ++ ": Shortcut error: Permission denied" |} ];
           isError := Some true |},
     ["shortcuts run 'Kitchen Light'"])
  /\ callTool "home_control_device" Sample.args Sample.notSpawned
     = (Ok {| content :=
                [ {| type := "text";
                     text :=
                       "Error running shortcut " ++ dq ++ "Kitchen Light" ++ dq
                       ++ ": Shortcut error: spawnSync /bin/sh ENOENT" |} ];
              isError := Some true |},
        ["shortcuts run 'Kitchen Light'"]).
Proof.
  split.
  - apply (failure_diagnostic Sample.args Sample.failing
             {| message := "Command failed";
                stderr := Some "Permission denied" |}).
    intros cmd. reflexivity.
  - apply (failure_diagnostic Sample.args Sample.notSpawned
             {| message := "spawnSync /bin/sh ENOENT"; stderr := None |}).
    intros cmd. reflexivity.
Defined.

(** C8, as stated, fails: the text of the hard error of
    [home_control_device] is not the diagnostic right after the colon; the
    words [Shortcut error: ] that [runShortcut] puts before the diagnostic
    stand in between. *)
Lemma failure_text_shape_counterexample :
  fst (callTool "home_control_device" Sample.args Sample.failing)
  = Ok (errorResponse
          ("Error running shortcut " ++ dq ++ "Kitchen Light" ++ dq
           ++ ": Shortcut error: Permission denied"))
  /\ fst (callTool "home_control_device" Sample.args Sample.failing)
     <> Ok (errorResponse
              ("Error running shortcut " ++ dq ++ "Kitchen Light" ++ dq
               ++ ": " ++ "Permission denied")).
Proof.
  split.
  - reflexivity.
  - vm_compute. discriminate.
Qed.

(** C6.  For [home_lights_on] with a room [r] that is not the empty
    string, the one command run names the shortcut [<r> Lights On], with
    [r] as given; on failure the answer is guidance ([isError] absent) that
    names that shortcut and the phrase [turn on <r> lights].  With no room,
    or with the empty string as room, the shortcut is [Lights On].  For
    the room [living room] the shortcut is [living room Lights On] and the
    phrase [turn on living room lights]. *)
Theorem lights_on_room (args : Arguments) (ex : env) (r : string) :
  r <> EmptyString ->
  let name := r ++ " Lights On" in
  let cmd := "shortcuts run " ++ quote name in
  callTool "home_lights_on" (withRoom (Some r) args) ex
  = (Ok {| content :=
             [ {| type := "text";
                  text :=
                    match ex cmd with
                    | Returns _ => "Lights on in " ++ r
                    | Throws _ =>
                        "To turn on lights in " ++ r
                        ++ ", create a Shortcut named " ++ dq ++ name ++ dq
                        ++ " that controls your HomeKit lights."
                        ++ nl ++ nl ++ "Alternatively, you can say to Siri: "
                        ++ dq ++ "turn on " ++ r ++ " lights" ++ dq
                    end |} ];
           isError := None |},
     [cmd])
  /\ argv cmd = Some ["shortcuts"; "run"; name]
  /\ snd (callTool "home_lights_on" (withRoom None args) ex)
     = ["shortcuts run 'Lights On'"]
  /\ snd (callTool "home_lights_on" (withRoom (Some EmptyString) args) ex)
     = ["shortcuts run 'Lights On'"]
  /\ callTool "home_lights_on" (withRoom (Some "living room") args)
       Sample.failing
     = (Ok {| content :=
                [ {| type := "text";
                     text :=
                       "To turn on lights in living room, create a Shortcut named "
                       ++ dq ++ "living room Lights On" ++ dq
                       ++ " that controls your HomeKit lights."
                       ++ nl ++ nl ++ "Alternatively, you can say to Siri: "
                       ++ dq ++ "turn on living room lights" ++ dq |} ];
              isError := None |},
        ["shortcuts run 'living room Lights On'"]).
Proof.
  intros Hr name cmd.
  assert (Hcmd : shortcutCommand name None = cmd).
  { unfold cmd, shortcutCommand, inputPart, ifTruthy.
    now rewrite append_nil_r. }
  split; [|split; [|split; [|split]]].
  - rewrite callTool_home_lights_on. cbn [withRoom room].
    unfold lightsOnAdvice, lightsOnName, ifTruthy, textResponse, siri.
    destruct r as [|c r]; [contradiction|]. cbn [nonEmpty].
    fold name. rewrite Hcmd.
    destruct (ex cmd); rewrite ?append_assoc; reflexivity.
  - rewrite <- Hcmd. apply argv_shortcutCommand_name.
  - rewrite callTool_home_lights_on. reflexivity.
  - rewrite callTool_home_lights_on. reflexivity.
  - rewrite callTool_home_lights_on. reflexivity.
Qed.

Lemma lights_on_room_witness :
  callTool "home_lights_on" (withRoom (Some "bedroom") Sample.args)
    Sample.succeeding
  = (Ok {| content := [ {| type := "text"; text := "Lights on in bedroom" |} ];
           isError := None |},
     ["shortcuts run 'bedroom Lights On'"]).
Proof.
  apply (lights_on_room Sample.args Sample.succeeding "bedroom").
  discriminate.
Defined.

(** C6, as stated, fails for the room that is the empty string: the
    shortcut run is [Lights On], not the empty room followed by
    [ Lights On]. *)
Lemma lights_on_empty_room_counterexample :
  snd (callTool "home_lights_on" (withRoom (Some EmptyString) Sample.args)
         Sample.succeeding)
  = ["shortcuts run 'Lights On'"]
  /\ argv "shortcuts run 'Lights On'" = Some ["shortcuts"; "run"; "Lights On"]
  /\ snd (callTool "home_lights_on" (withRoom (Some EmptyString) Sample.args)
            Sample.succeeding)
     <> ["shortcuts run " ++ quote (EmptyString ++ " Lights On")].
Proof.
  repeat split.
  vm_compute. discriminate.
Qed.


(** * Further properties *)

(** ** Quoting *)

Lemma escapeQuotes_append (a b : string) :
  escapeQuotes (a ++ b) = escapeQuotes a ++ escapeQuotes b.
Proof.
  induction a as [|c a IH]; [reflexivity|].
  cbn [append escapeQuotes]. rewrite IH.
  destruct (Ascii.eqb c squote); [|reflexivity].
  now rewrite append_assoc.
Qed.

Lemma length_append (a b : string) :
  String.length (a ++ b) = String.length a + String.length b.
Proof. induction a as [|c a IH]; simpl; [reflexivity | now rewrite IH]. Qed.

Lemma escapeQuotes_length (s : string) :
  String.length (escapeQuotes s) = String.length s + 4 * occurrences squote s.
Proof.
  induction s as [|c s IH]; [reflexivity|].
  cbn [escapeQuotes occurrences String.length].
  destruct (Ascii.eqb c squote).
  - rewrite length_append, IH. change (String.length replacement) with 5. lia.
  - cbn [String.length]. rewrite IH. lia.
Qed.

(** X1.  Escaping adds four characters for each single quote and nothing
    else: it leaves a string unchanged exactly when the string has no
    single quote, and the escaped text of a concatenation is the
    concatenation of the escaped texts. *)
Theorem escapeQuotes_measure (s a b : string) :
  String.length (escapeQuotes s) = String.length s + 4 * occurrences squote s
  /\ (escapeQuotes s = s <-> occurrences squote s = 0)
  /\ escapeQuotes (a ++ b) = escapeQuotes a ++ escapeQuotes b.
Proof.
  split; [apply escapeQuotes_length | split; [|apply escapeQuotes_append]].
  split.
  - intros H. pose proof (escapeQuotes_length s) as L. rewrite H in L. lia.
  - induction s as [|c s IH]; [reflexivity|].
    cbn [occurrences escapeQuotes]. destruct (Ascii.eqb c squote).
    + discriminate.
    + intros H. now rewrite (IH H).
Qed.

(** The argument vector of the command line of [runShortcut], for every
    name and input. *)
Lemma argv_shortcutCommand (name : string) (input : option string) :
  argv (shortcutCommand name input)
  = Some ("shortcuts" :: "run" :: name
          :: match passedInput input with
             | Some i => ["-i"; i]
             | None => []
             end).
Proof.
  destruct input as [[|c i]|].
  - apply argv_shortcutCommand_name.
  - apply argv_shortcutCommand_input.
  - apply argv_shortcutCommand_name.
Qed.

(** X2.  Command lines of [runShortcut] do not collide: two calls that
    build the same command line have the same name and pass the same
    input (an input that is not truthy counting as none). *)
Theorem shortcutCommand_injective (n1 n2 : string) (i1 i2 : option string) :
  shortcutCommand n1 i1 = shortcutCommand n2 i2 ->
  n1 = n2 /\ passedInput i1 = passedInput i2.
Proof.
  intros H. apply (f_equal argv) in H.
  rewrite !argv_shortcutCommand in H. injection H as Hn Hi.
  split; [exact Hn|].
  destruct (passedInput i1), (passedInput i2); try discriminate Hi;
    [injection Hi as ->|]; reflexivity.
Qed.

Lemma shortcutCommand_injective_witness :
  "Lights On" = "Lights On"
  /\ passedInput (Some EmptyString) = passedInput None.
Proof.
  apply (shortcutCommand_injective "Lights On" "Lights On"
           (Some EmptyString) None).
  reflexivity.
Defined.

(** ** The helpers *)

Lemma trimEnd_idempotent (s : string) : trimEnd (trimEnd s) = trimEnd s.
Proof.
  induction s as [|c s IH]; [reflexivity|].
  cbn [trimEnd]. destruct (trimEnd s) as [|d r] eqn:E.
  - destruct (isWhiteSpace c) eqn:Hc; [reflexivity|].
    unfold str1. cbn [trimEnd]. now rewrite Hc.
  - cbn [trimEnd] in IH |- *. destruct (trimEnd r) as [|d' r'] eqn:E'.
    + destruct (isWhiteSpace d) eqn:Hd; [discriminate IH|].
      rewrite IH. reflexivity.
    + rewrite IH. reflexivity.
Qed.

Lemma trimStart_trimEnd (c : ascii) (r : string) :
  isWhiteSpace c = false ->
  trimStart (trimEnd (String c r)) = trimEnd (String c r).
Proof.
  intros Hc. cbn [trimEnd]. rewrite Hc.
  destruct (trimEnd r); unfold str1; cbn [trimStart]; now rewrite Hc.
Qed.

Lemma trimStart_head (s : string) :
  trimStart s = EmptyString
  \/ exists (c : ascii) (r : string),
       trimStart s = String c r /\ isWhiteSpace c = false.
Proof.
  induction s as [|c s IH]; [now left|].
  cbn [trimStart]. destruct (isWhiteSpace c) eqn:Hc; [exact IH|].
  right. now exists c, s.
Qed.

Lemma trim_idempotent (s : string) : trim (trim s) = trim s.
Proof.
  unfold trim. destruct (trimStart_head s) as [H|(c & r & H & Hc)]; rewrite H.
  - reflexivity.
  - rewrite (trimStart_trimEnd c r Hc). apply trimEnd_idempotent.
Qed.

(** ** The cases of the handler the claims leave out *)

Lemma shortcutCommand_no_input (name : string) :
  shortcutCommand name None = "shortcuts run " ++ quote name.
Proof.
  unfold shortcutCommand, inputPart, ifTruthy. now rewrite append_nil_r.
Qed.

(** X4.  [home_run_scene] runs the shortcut named by the scene, whatever
    characters the scene holds, as one argument of [shortcuts run].  When
    the command returns the answer is [Activated scene: <scene>]; when it
    fails the answer is guidance that repeats the scene between double
    quotes, and not an error. *)
Theorem run_scene (args : Arguments) (ex : env) :
  let s := scene args in
  let cmd := "shortcuts run " ++ quote s in
  callTool "home_run_scene" args ex
  = (Ok {| content :=
             [ {| type := "text";
                  text :=
                    match ex cmd with
                    | Returns _ => "Activated scene: " ++ s
                    | Throws _ =>
                        "To run scene " ++ dq ++ s ++ dq
                        ++ ", please create a Shortcut with that name that activates the HomeKit scene."
                    end |} ];
           isError := None |},
     [cmd])
  /\ argv cmd = Some ["shortcuts"; "run"; s].
Proof.
  intros s cmd. split.
  - rewrite callTool_home_run_scene, shortcutCommand_no_input. reflexivity.
  - unfold cmd. rewrite <- shortcutCommand_no_input.
    apply argv_shortcutCommand_name.
Qed.

(** X5.  [home_control_device] with an action that is not the empty string
    passes it to the shortcut as the argument of [-i], whatever characters
    it holds, and on success answers
    [Executed shortcut: <name> with action: <action>]. *)
Theorem control_device_action (args : Arguments) (ex : env) (a : string) :
  a <> EmptyString ->
  let name := shortcutName args in
  let cmd := "shortcuts run " ++ quote name ++ " -i " ++ quote a in
  callTool "home_control_device" (withAction (Some a) args) ex
  = (Ok match ex cmd with
        | Returns _ =>
            {| content :=
                 [ {| type := "text";
                      text :=
                        "Executed shortcut: " ++ name ++ " with action: " ++ a
                    |} ];
               isError := None |}
        | Throws e =>
            {| content :=
                 [ {| type := "text";
                      text :=
                        "Error running shortcut " ++ dq ++ name ++ dq
                        ++ ": Shortcut error: " ++ diagnostic e |} ];
               isError := Some true |}
        end,
     [cmd])
  /\ argv cmd = Some ["shortcuts"; "run"; name; "-i"; a].
Proof.
  intros Ha name cmd. destruct a as [|c a]; [contradiction|].
  assert (Hcmd : shortcutCommand name (Some (String c a)) = cmd)
    by (now apply shortcutCommand_input).
  split.
  - pose proof (callTool_home_control_device
                  (withAction (Some (String c a)) args) ex) as H.
    cbv zeta in H. cbn [withAction shortcutName action] in H.
    fold name in H. rewrite Hcmd in H. rewrite H.
    destruct (ex cmd); reflexivity.
  - rewrite <- Hcmd. apply argv_shortcutCommand_input.
Qed.

Lemma control_device_action_witness :
  callTool "home_control_device" (withAction (Some "toggle") Sample.args)
    Sample.succeeding
  = (Ok {| content :=
             [ {| type := "text";
                  text :=
                    "Executed shortcut: Kitchen Light with action: toggle" |} ];
           isError := None |},
     ["shortcuts run 'Kitchen Light' -i 'toggle'"]).
Proof.
  apply (control_device_action Sample.args Sample.succeeding "toggle").
  discriminate.
Defined.

(** X6.  [home_lights_off] mirrors [home_lights_on]: with a room [r] that
    is not the empty string it runs the shortcut [<r> Lights Off], answers
    [Lights off in <r>] when the command returns, and guidance that names
    the shortcut and the phrase [turn off <r> lights] when it fails; with
    no room, or the empty string as room, it runs [Lights Off] and answers
    [Lights off]. *)
Theorem lights_off_room (args : Arguments) (ex : env) (r : string) :
  r <> EmptyString ->
  let name := r ++ " Lights Off" in
  let cmd := "shortcuts run " ++ quote name in
  callTool "home_lights_off" (withRoom (Some r) args) ex
  = (Ok {| content :=
             [ {| type := "text";
                  text :=
                    match ex cmd with
                    | Returns _ => "Lights off in " ++ r
                    | Throws _ =>
                        "To turn off lights in " ++ r
                        ++ ", create a Shortcut named " ++ dq ++ name ++ dq
                        ++ " that controls your HomeKit lights."
                        ++ nl ++ nl ++ "Alternatively, you can say to Siri: "
                        ++ dq ++ "turn off " ++ r ++ " lights" ++ dq
                    end |} ];
           isError := None |},
     [cmd])
  /\ argv cmd = Some ["shortcuts"; "run"; name]
  /\ (forall out : string,
        callTool "home_lights_off" (withRoom None args) (Sample.printing out)
        = (Ok (textResponse "Lights off"), ["shortcuts run 'Lights Off'"]))
  /\ callTool "home_lights_off" (withRoom (Some EmptyString) args) ex
     = callTool "home_lights_off" (withRoom None args) ex.
Proof.
  intros Hr name cmd.
  assert (Hcmd : shortcutCommand name None = cmd)
    by apply shortcutCommand_no_input.
  assert (Hrun : forall a : Arguments,
             callTool "home_lights_off" a ex
             = tryCatch (lightsOff a)
                 (fun error =>
                    ret (errorResponse ("Error: " ++ message error))) ex)
    by reflexivity.
  split; [|split; [|split]].
  - rewrite Hrun. unfold lightsOff. cbn [withRoom room].
    destruct r as [|c r]; [contradiction|]. unfold ifTruthy. cbn [nonEmpty].
    rewrite quick_action_run. fold name. rewrite Hcmd.
    unfold textResponse, siri.
    destruct (ex cmd); rewrite ?append_assoc; reflexivity.
  - rewrite <- Hcmd. apply argv_shortcutCommand_name.
  - intros out. reflexivity.
  - reflexivity.
Qed.

Lemma lights_off_room_witness :
  callTool "home_lights_off" (withRoom (Some "bedroom") Sample.args)
    Sample.succeeding
  = (Ok {| content := [ {| type := "text"; text := "Lights off in bedroom" |} ];
           isError := None |},
     ["shortcuts run 'bedroom Lights Off'"]).
Proof.
  apply (lights_off_room Sample.args Sample.succeeding "bedroom").
  discriminate.
Defined.

(** X7.  [home_lock_doors] and [home_unlock_doors] read no argument: they
    run [shortcuts run 'Lock Doors'] and [shortcuts run 'Unlock Doors'],
    answer [Doors locked] and [Doors unlocked] when the command returns,
    and answer guidance, never an error, when it fails. *)
Theorem lock_and_unlock_doors (args : Arguments) (ex : env) :
  callTool "home_lock_doors" args ex
  = (Ok {| content :=
             [ {| type := "text";
                  text :=
                    match ex "shortcuts run 'Lock Doors'" with
                    | Returns _ => "Doors locked"
                    | Throws _ =>
                        "To lock doors, create a Shortcut named " ++ dq
                        ++ "Lock Doors" ++ dq
                        ++ " that controls your HomeKit locks." ++ nl ++ nl
                        ++ "Alternatively, you can say to Siri: " ++ dq
                        ++ "Lock all doors" ++ dq
                    end |} ];
           isError := None |},
     ["shortcuts run 'Lock Doors'"])
  /\ callTool "home_unlock_doors" args ex
     = (Ok {| content :=
                [ {| type := "text";
                     text :=
                       match ex "shortcuts run 'Unlock Doors'" with
                       | Returns _ => "Doors unlocked"
                       | Throws _ =>
                           "To unlock doors, create a Shortcut named " ++ dq
                           ++ "Unlock Doors" ++ dq
                           ++ " that controls your HomeKit locks." ++ nl ++ nl
                           ++ "Alternatively, you can say to Siri: " ++ dq
                           ++ "Unlock all doors" ++ dq
                       end |} ];
              isError := None |},
        ["shortcuts run 'Unlock Doors'"]).
Proof.
  split.
  - transitivity
      (tryCatch (handleCase home_lock_doors args)
         (fun error => ret (errorResponse ("Error: " ++ message error))) ex);
      [reflexivity|].
    unfold handleCase. rewrite quick_action_run.
    change (shortcutCommand "Lock Doors" None)
      with "shortcuts run 'Lock Doors'".
    destruct (ex _); reflexivity.
  - transitivity
      (tryCatch (handleCase home_unlock_doors args)
         (fun error => ret (errorResponse ("Error: " ++ message error))) ex);
      [reflexivity|].
    unfold handleCase. rewrite quick_action_run.
    change (shortcutCommand "Unlock Doors" None)
      with "shortcuts run 'Unlock Doors'".
    destruct (ex _); reflexivity.
Qed.

(** X8.  [home_open] and [home_get_status] read no argument and run the
    same command, the interpreter with the one script that activates the
    Home application; when it returns they answer with their fixed texts
    and no error flag. *)
Theorem open_and_status (args : Arguments) (ex : env) (out : string) :
  ex (appleScriptCommand activateHome) = Returns out ->
  callTool "home_open" args ex
  = (Ok {| content := [ {| type := "text"; text := "Home app opened" |} ];
           isError := None |},
     [appleScriptCommand activateHome])
  /\ callTool "home_get_status" args ex
     = (Ok {| content :=
                [ {| type := "text";
                     text :=
                       "Home app opened. Note: HomeKit device status is not accessible via AppleScript. View status in the Home app." |} ];
              isError := None |},
        [appleScriptCommand activateHome])
  /\ argv (appleScriptCommand activateHome)
     = Some ["osascript"; "-e";
             "tell application " ++ dq ++ "Home" ++ dq ++ " to activate"].
Proof.
  intros H. split; [|split].
  - rewrite callTool_home_open, H. reflexivity.
  - rewrite callTool_home_get_status, H. reflexivity.
  - apply argv_appleScriptCommand.
Qed.

Lemma open_and_status_witness :
  callTool "home_open" Sample.args Sample.succeeding
  = (Ok {| content := [ {| type := "text"; text := "Home app opened" |} ];
           isError := None |},
     [appleScriptCommand activateHome]).
Proof.
  apply (open_and_status Sample.args Sample.succeeding EmptyString).
  reflexivity.
Defined.

(** ** The handler as a whole *)

(** Every case runs one command, fixed by the arguments, and answers with
    one text block that depends on the outcome of that command only. *)
Lemma callTool_normal_form (t : tool) (args : Arguments) :
  exists (cmd : string) (good : string -> string) (bad : JsError -> string)
         (flag : option bool),
    builtCommand cmd
    /\ (flag = None \/ flag = Some true)
    /\ (forall ex : env,
          callTool (toolName t) args ex
          = (Ok match ex cmd with
                | Returns o => textResponse (good o)
                | Throws e =>
                    {| content := [ {| type := "text"; text := bad e |} ];
                       isError := flag |}
                end,
             [cmd]))
    /\ (forall o : string, good o <> EmptyString)
    /\ (forall e : JsError, bad e <> EmptyString)
    /\ (t <> home_list_shortcuts -> forall o o' : string, good o = good o')
    /\ (t <> home_open -> t <> home_control_device -> t <> home_get_status ->
        forall e e' : JsError, bad e = bad e').
Proof.
  destruct t.
  - exists (appleScriptCommand activateHome), (fun _ => "Home app opened"),
      (fun e => "Error: AppleScript error: " ++ diagnostic e), (Some true).
    split; [now left|]. split; [auto|]. split.
    { intros ex. change (toolName home_open) with "home_open".
      rewrite callTool_home_open. destruct (ex _); reflexivity. }
    repeat split; intros; try discriminate; intuition discriminate.
  - exists (shortcutCommand (scene args) None),
      (fun _ => "Activated scene: " ++ scene args),
      (fun _ => "To run scene " ++ dq ++ scene args ++ dq
                ++ ", please create a Shortcut with that name that activates the HomeKit scene."),
      None.
    split; [right; right; now do 2 eexists|]. split; [auto|]. split.
    { intros ex. change (toolName home_run_scene) with "home_run_scene".
      rewrite callTool_home_run_scene. destruct (ex _); reflexivity. }
    repeat split; intros; try discriminate; intuition discriminate.
  - exists (shortcutCommand (shortcutName args) (action args)),
      (fun _ => "Executed shortcut: " ++ shortcutName args
                ++ ifTruthy (action args) (fun a => " with action: " ++ a)
                     EmptyString),
      (fun e => "Error running shortcut " ++ dq ++ shortcutName args ++ dq
                ++ ": " ++ "Shortcut error: " ++ diagnostic e),
      (Some true).
    split; [right; right; now do 2 eexists|]. split; [auto|]. split.
    { intros ex.
      change (toolName home_control_device) with "home_control_device".
      pose proof (callTool_home_control_device args ex) as H.
      cbv zeta in H. rewrite H. destruct (ex _); reflexivity. }
    repeat split; intros; try discriminate; intuition discriminate.
  - exists "shortcuts list",
      (fun o =>
         match homeRelated (option_map toLowerCase (filter args))
                 (shortcutLines o) with
         | [] => noneFoundText (option_map toLowerCase (filter args))
         | related => "Available Shortcuts:" ++ nl ++ joinLines related
         end),
      (fun _ => "Error listing shortcuts. Make sure Shortcuts app is available."),
      (Some true).
    split; [right; now left|]. split; [auto|]. split.
    { intros ex.
      change (toolName home_list_shortcuts) with "home_list_shortcuts".
      rewrite callTool_home_list_shortcuts.
      destruct (ex _) as [o|e]; [|reflexivity].
      unfold listingResponse. destruct (homeRelated _ _); reflexivity. }
    split; [|split; [intros; discriminate|split; [intros H; now contradiction H|reflexivity]]].
    intros o. destruct (homeRelated _ _); [|discriminate].
    unfold noneFoundText, ifTruthy.
    destruct (option_map toLowerCase (filter args)) as [[|c f]|]; discriminate.
  - exists (shortcutCommand (lightsOnName (room args)) None),
      (fun _ => "Lights on"
                ++ ifTruthy (room args) (fun r => " in " ++ r) EmptyString),
      (fun _ => lightsOnAdvice (room args)), None.
    split; [right; right; now do 2 eexists|]. split; [auto|]. split.
    { intros ex. change (toolName home_lights_on) with "home_lights_on".
      rewrite callTool_home_lights_on. destruct (ex _); reflexivity. }
    repeat split; intros; try discriminate; intuition discriminate.
  - exists (shortcutCommand
              (ifTruthy (room args) (fun r => r ++ " Lights Off") "Lights Off")
              None),
      (fun _ => "Lights off"
                ++ ifTruthy (room args) (fun r => " in " ++ r) EmptyString),
      (fun _ => "To turn off lights"
                ++ ifTruthy (room args) (fun r => " in " ++ r) EmptyString
                ++ ", create a Shortcut named " ++ dq
                ++ ifTruthy (room args) (fun r => r ++ " Lights Off")
                     "Lights Off"
                ++ dq ++ " that controls your HomeKit lights."
                ++ siri ++ dq
                ++ ifTruthy (room args)
                     (fun r => "turn off " ++ r ++ " lights")
                     "turn off the lights"
                ++ dq),
      None.
    split; [right; right; now do 2 eexists|]. split; [auto|]. split.
    { intros ex. change (toolName home_lights_off) with "home_lights_off".
      transitivity
        (tryCatch (lightsOff args)
           (fun error => ret (errorResponse ("Error: " ++ message error))) ex);
        [reflexivity|].
      unfold lightsOff. rewrite quick_action_run.
      destruct (ex _); reflexivity. }
    repeat split; intros; try discriminate; intuition discriminate.
  - exists (shortcutCommand "Set Thermostat"
              (Some (tempStr (temperature args) (unitOrDefault (unit args))))),
      (fun _ => "Thermostat set to " ++ numberToString (temperature args)
                ++ "°" ++ unitLetter (unitOrDefault (unit args))),
      (fun _ => thermostatAdvice (temperature args)
                  (unitOrDefault (unit args))),
      None.
    split; [right; right; now do 2 eexists|]. split; [auto|]. split.
    { intros ex.
      change (toolName home_set_thermostat) with "home_set_thermostat".
      pose proof (callTool_home_set_thermostat args ex) as H.
      cbv zeta in H. rewrite H. destruct (ex _); reflexivity. }
    repeat split; intros; try discriminate; intuition discriminate.
  - exists "shortcuts run 'Lock Doors'", (fun _ => "Doors locked"),
      (fun _ => "To lock doors, create a Shortcut named " ++ dq
                ++ "Lock Doors" ++ dq
                ++ " that controls your HomeKit locks." ++ nl ++ nl
                ++ "Alternatively, you can say to Siri: " ++ dq
                ++ "Lock all doors" ++ dq),
      None.
    split; [right; right; now exists "Lock Doors", None|]. split; [auto|]. split.
    { intros ex. change (toolName home_lock_doors) with "home_lock_doors".
      transitivity
        (tryCatch (handleCase home_lock_doors args)
           (fun error => ret (errorResponse ("Error: " ++ message error))) ex);
        [reflexivity|].
      unfold handleCase. rewrite quick_action_run.
      change (shortcutCommand "Lock Doors" None)
        with "shortcuts run 'Lock Doors'".
      destruct (ex _); reflexivity. }
    repeat split; intros; try discriminate; intuition discriminate.
  - exists "shortcuts run 'Unlock Doors'", (fun _ => "Doors unlocked"),
      (fun _ => "To unlock doors, create a Shortcut named " ++ dq
                ++ "Unlock Doors" ++ dq
                ++ " that controls your HomeKit locks." ++ nl ++ nl
                ++ "Alternatively, you can say to Siri: " ++ dq
                ++ "Unlock all doors" ++ dq),
      None.
    split; [right; right; now exists "Unlock Doors", None|]. split; [auto|]. split.
    { intros ex. change (toolName home_unlock_doors) with "home_unlock_doors".
      transitivity
        (tryCatch (handleCase home_unlock_doors args)
           (fun error => ret (errorResponse ("Error: " ++ message error))) ex);
        [reflexivity|].
      unfold handleCase. rewrite quick_action_run.
      change (shortcutCommand "Unlock Doors" None)
        with "shortcuts run 'Unlock Doors'".
      destruct (ex _); reflexivity. }
    repeat split; intros; try discriminate; intuition discriminate.
  - exists (appleScriptCommand activateHome),
      (fun _ => "Home app opened. Note: HomeKit device status is not accessible via AppleScript. View status in the Home app."),
      (fun e => "Error: AppleScript error: " ++ diagnostic e), (Some true).
    split; [now left|]. split; [auto|]. split.
    { intros ex. change (toolName home_get_status) with "home_get_status".
      rewrite callTool_home_get_status. destruct (ex _); reflexivity. }
    repeat split; intros; try discriminate; intuition discriminate.
Qed.

Lemma toolNames_In (name : string) :
  In name toolNames <-> exists t : tool, name = toolName t.
Proof.
  unfold toolNames. rewrite in_map_iff. split.
  - intros (t & H & _). now exists t.
  - intros (t & ->). exists t. split; [reflexivity|].
    destruct t; simpl; auto 12.
Qed.

Lemma toolOfName_None_iff (name : string) :
  toolOfName name = None <-> ~ In name toolNames.
Proof.
  split; [|apply toolOfName_None].
  intros H Hin. apply toolNames_In in Hin as (t & ->).
  rewrite toolOfName_toolName in H. discriminate H.
Qed.

(** A call for a name outside the catalogue runs nothing. *)
Lemma callTool_unknown (name : string) (args : Arguments) (ex : env) :
  toolOfName name = None ->
  callTool name args ex = (Ok (errorResponse ("Unknown tool: " ++ name)), []).
Proof. intros H. unfold callTool. now rewrite H. Qed.

Lemma argv_builtCommand (cmd : string) :
  builtCommand cmd ->
  argv cmd = Some ["osascript"; "-e"; activateHome]
  \/ argv cmd = Some ["shortcuts"; "list"]
  \/ (exists n : string, argv cmd = Some ["shortcuts"; "run"; n])
  \/ (exists n i : string, argv cmd = Some ["shortcuts"; "run"; n; "-i"; i]).
Proof.
  intros [->|[->|(n & i & ->)]].
  - left. apply argv_appleScriptCommand.
  - right. left. reflexivity.
  - rewrite argv_shortcutCommand. destruct (passedInput i) as [x|].
    + right. right. right. now exists n, x.
    + right. right. left. now exists n.
Qed.

(** X12.  What a command prints is used by the listing only: for every
    other tool the call gives the same response whatever the command
    prints. *)
Theorem output_ignored (t : tool) (args : Arguments) (out1 out2 : string) :
  toolName t <> "home_list_shortcuts" ->
  callTool (toolName t) args (Sample.printing out1)
  = callTool (toolName t) args (Sample.printing out2).
Proof.
  intros Ht.
  destruct (callTool_normal_form t args)
    as (cmd & good & bad & flag & _ & _ & H & _ & _ & Hsame & _).
  rewrite !H. unfold Sample.printing.
  rewrite (Hsame (fun E => Ht (f_equal toolName E)) out1 out2). reflexivity.
Qed.

Lemma output_ignored_witness :
  callTool "home_lights_on" Sample.args (Sample.printing "done")
  = callTool "home_lights_on" Sample.args (Sample.printing EmptyString).
Proof.
  apply (output_ignored home_lights_on Sample.args "done" EmptyString).
  discriminate.
Defined.

(** X13.  Every response has exactly one content block; its type is
    [text], its text is not empty, and the error flag is either absent or
    [true], never [false]. *)
Theorem one_text_block (name : string) (args : Arguments) (ex : env) :
  exists (txt : string) (flag : option bool) (cmds : list string),
    callTool name args ex
    = (Ok {| content := [ {| type := "text"; text := txt |} ];
             isError := flag |},
       cmds)
    /\ txt <> EmptyString
    /\ (flag = None \/ flag = Some true).
Proof.
  destruct (toolOfName name) as [t|] eqn:E.
  - apply toolOfName_Some in E. subst name.
    destruct (callTool_normal_form t args)
      as (cmd & good & bad & flag & _ & Hf & H & Hg & Hb & _).
    rewrite H. destruct (ex cmd) as [o|e].
    + exists (good o), None, [cmd]. split; [reflexivity|].
      split; [apply Hg | now left].
    + exists (bad e), flag, [cmd]. split; [reflexivity|].
      split; [apply Hb | exact Hf].
  - rewrite (callTool_unknown name args ex E).
    exists ("Unknown tool: " ++ name), (Some true), [].
    split; [reflexivity|]. split; [discriminate | now right].
Qed.

(** ** The listing *)

Lemma occurrences_append (c : ascii) (a b : string) :
  occurrences c (a ++ b) = occurrences c a + occurrences c b.
Proof.
  induction a as [|d a IH]; [reflexivity|].
  cbn [append occurrences]. rewrite IH. lia.
Qed.

(** No piece of [split] holds a line feed. *)
Lemma splitLinesFrom_no_newline (s : string) :
  forall (cur l : string),
    occurrences newline cur = 0 ->
    In l (splitLinesFrom cur s) ->
    occurrences newline l = 0.
Proof.
  induction s as [|c s IH]; intros cur l Hcur Hin.
  - destruct Hin as [<-|[]]. exact Hcur.
  - cbn [splitLinesFrom] in Hin.
    destruct (Ascii.eqb c newline) eqn:Hc.
    + destruct Hin as [<-|Hin]; [exact Hcur|].
      now apply (IH EmptyString l).
    + apply (IH (cur ++ str1 c) l); [|exact Hin].
      rewrite occurrences_append, Hcur. cbn [str1 occurrences].
      now rewrite Hc.
Qed.

(** A text without line feed is one piece. *)
Lemma splitLinesFrom_line (x : string) :
  forall cur : string,
    occurrences newline x = 0 ->
    splitLinesFrom cur x = [cur ++ x]
    /\ forall rest : string,
         splitLinesFrom cur (x ++ String newline rest)
         = (cur ++ x) :: splitLinesFrom EmptyString rest.
Proof.
  induction x as [|c x IH]; intros cur Hx.
  - rewrite append_nil_r. split; [reflexivity|]. intros rest.
    cbn [append splitLinesFrom]. now rewrite Ascii.eqb_refl.
  - cbn [occurrences] in Hx.
    destruct (Ascii.eqb c newline) eqn:Hc; [discriminate Hx|].
    destruct (IH (cur ++ str1 c) Hx) as [H1 H2].
    split.
    + cbn [splitLinesFrom]. rewrite Hc, H1. now rewrite append_snoc.
    + intros rest. cbn [append splitLinesFrom]. rewrite Hc, H2.
      now rewrite append_snoc.
Qed.

(** Splitting what [join] made of lines without line feed gives the lines
    back. *)
Lemma splitLines_joinLines (x : string) (xs : list string) :
  Forall (fun l => occurrences newline l = 0) (x :: xs) ->
  splitLines (joinLines (x :: xs)) = x :: xs.
Proof.
  revert x. induction xs as [|y ys IH]; intros x H.
  - inversion H as [|? ? Hx _]; subst.
    apply (splitLinesFrom_line x EmptyString Hx).
  - inversion H as [|? ? Hx Hrest]; subst.
    change (joinLines (x :: y :: ys))
      with (x ++ String newline (joinLines (y :: ys))).
    unfold splitLines.
    destruct (splitLinesFrom_line x EmptyString Hx) as [_ H2].
    rewrite H2. f_equal. apply (IH y Hrest).
Qed.

Lemma homeRelated_filter (flt : option string) (shortcuts : list string) :
  exists keep : string -> bool,
    homeRelated flt shortcuts = List.filter keep shortcuts.
Proof.
  unfold homeRelated, ifTruthy.
  destruct flt as [[|c f]|]; eexists; reflexivity.
Qed.

Lemma filter_filter {A : Type} (p q : A -> bool) (l : list A) :
  List.filter p (List.filter q l) = List.filter (fun x => q x && p x) l.
Proof.
  induction l as [|x l IH]; [reflexivity|].
  cbn [List.filter]. destruct (q x); cbn [List.filter andb]; now rewrite IH.
Qed.

(** X16.  Filtering by one of the keywords never shows a line the listing
    without filter would hide: the lines kept with the filter are among
    the lines kept without it. *)
Theorem keyword_filter_narrows (k : string) (shortcuts : list string)
    (l : string) :
  In k homeKeywords ->
  In l (homeRelated (option_map toLowerCase (Some k)) shortcuts) ->
  In l (homeRelated (option_map toLowerCase None) shortcuts).
Proof.
  intros Hk Hl.
  assert (Hlow : toLowerCase k = k /\ nonEmpty k = true).
  { unfold homeKeywords in Hk. simpl in Hk.
    repeat (destruct Hk as [<-|Hk]; [split; reflexivity|]). destruct Hk. }
  destruct Hlow as [Hlow Hne].
  cbn [option_map] in Hl |- *. rewrite Hlow in Hl.
  unfold homeRelated, ifTruthy in Hl |- *. rewrite Hne in Hl.
  apply filter_In in Hl as [Hin Hinc]. apply filter_In. split; [exact Hin|].
  apply existsb_exists. now exists k.
Qed.

Lemma keyword_filter_narrows_witness :
  In "Lock Doors"
    (homeRelated (option_map toLowerCase None) ["Lights On"; "Lock Doors"]).
Proof.
  apply (keyword_filter_narrows "lock" ["Lights On"; "Lock Doors"]
           "Lock Doors").
  - unfold homeKeywords. simpl. auto 8.
  - vm_compute. left. reflexivity.
Defined.

(** ** The thermostat *)

(** X17.  Naming the default unit changes nothing: a call with the unit
    [fahrenheit] runs the same command and gives the same answer as the
    call without unit. *)
Theorem thermostat_default_unit (args : Arguments) (ex : env) (t : Z) :
  callTool "home_set_thermostat" (withThermostat t (Some "fahrenheit") args) ex
  = callTool "home_set_thermostat" (withThermostat t None args) ex.
Proof.
  pose proof (callTool_home_set_thermostat
                (withThermostat t (Some "fahrenheit") args) ex) as H1.
  pose proof (callTool_home_set_thermostat (withThermostat t None args) ex)
    as H0.
  cbv zeta in H1, H0. now rewrite H1, H0.
Qed.

(** ** The catalogue and the handler *)

(** X18.  The catalogue and the [switch] agree: the names the catalogue
    lists, in its order, are the ten labels of the [switch], so a tool is
    listed exactly when the handler has a case for it; no name is listed
    twice; and every tool requires only properties it declares. *)
Theorem catalogue_matches_handler :
  map Catalogue.name Catalogue.tools = toolNames
  /\ (forall n : string,
        In n (map Catalogue.name Catalogue.tools)
        <-> exists t : tool, toolOfName n = Some t)
  /\ NoDup (map Catalogue.name Catalogue.tools)
  /\ Forall
       (fun d =>
          incl (Catalogue.required (Catalogue.inputSchema d))
            (Catalogue.declared d))
       Catalogue.tools.
Proof.
  split; [reflexivity|]. split; [|split].
  - intros n. change (map Catalogue.name Catalogue.tools) with toolNames.
    rewrite toolNames_In. split.
    + intros (t & ->). exists t. apply toolOfName_toolName.
    + intros (t & H). exists t. now apply toolOfName_Some.
  - change (map Catalogue.name Catalogue.tools) with toolNames.
    unfold toolNames, allTools. cbn [map toolName].
    repeat (constructor; [simpl; intuition discriminate|]). constructor.
  - unfold Catalogue.tools.
    repeat (constructor;
            [unfold incl; cbn; intros a Ha; intuition|]).
    constructor.
Qed.

Lemma ofOption_injective (x y : option string) :
  Catalogue.ofOption x = Catalogue.ofOption y -> x = y.
Proof.
  destruct x, y; cbn; intros H; try discriminate H;
    [now injection H as ->|reflexivity].
Qed.

(** X19.  The handler reads no argument the catalogue does not declare:
    two calls of a listed tool whose arguments agree on the properties the
    tool declares run the same command and give the same answer. *)
Theorem reads_declared_only (d : Catalogue.ToolDefinition)
    (a b : Arguments) (ex : env) :
  In d Catalogue.tools ->
  (forall k : string,
     In k (Catalogue.declared d) -> Catalogue.get k a = Catalogue.get k b) ->
  callTool (Catalogue.name d) a ex = callTool (Catalogue.name d) b ex.
Proof.
  intros Hd Hsame. unfold Catalogue.tools in Hd.
  repeat (destruct Hd as [<-|Hd]); [..|destruct Hd];
    cbn [Catalogue.name];
    unfold Catalogue.declared in Hsame;
    cbn [Catalogue.inputSchema Catalogue.properties map fst] in Hsame.
  - reflexivity.
  - assert (H : scene a = scene b).
    { specialize (Hsame "scene" (or_introl eq_refl)).
      change (Catalogue.VString (scene a) = Catalogue.VString (scene b))
        in Hsame.
      now injection Hsame. }
    rewrite !callTool_home_run_scene. now rewrite H.
  - assert (H1 : shortcutName a = shortcutName b).
    { specialize (Hsame "shortcutName" (or_introl eq_refl)).
      change (Catalogue.VString (shortcutName a)
              = Catalogue.VString (shortcutName b)) in Hsame.
      now injection Hsame. }
    assert (H2 : action a = action b).
    { apply ofOption_injective.
      exact (Hsame "action" (or_intror (or_introl eq_refl))). }
    pose proof (callTool_home_control_device a ex) as Ha.
    pose proof (callTool_home_control_device b ex) as Hb.
    cbv zeta in Ha, Hb. rewrite Ha, Hb. now rewrite H1, H2.
  - assert (H : filter a = filter b).
    { apply ofOption_injective. exact (Hsame "filter" (or_introl eq_refl)). }
    rewrite !callTool_home_list_shortcuts. now rewrite H.
  - assert (H : room a = room b).
    { apply ofOption_injective. exact (Hsame "room" (or_introl eq_refl)). }
    rewrite !callTool_home_lights_on. now rewrite H.
  - assert (H : room a = room b).
    { apply ofOption_injective. exact (Hsame "room" (or_introl eq_refl)). }
    transitivity
      (tryCatch (lightsOff a)
         (fun error => ret (errorResponse ("Error: " ++ message error))) ex);
      [reflexivity|].
    unfold lightsOff. now rewrite H.
  - assert (H1 : temperature a = temperature b).
    { specialize (Hsame "temperature" (or_introl eq_refl)).
      change (Catalogue.VNumber (temperature a)
              = Catalogue.VNumber (temperature b)) in Hsame.
      now injection Hsame. }
    assert (H2 : unit a = unit b).
    { apply ofOption_injective.
      exact (Hsame "unit" (or_intror (or_introl eq_refl))). }
    pose proof (callTool_home_set_thermostat a ex) as Ha.
    pose proof (callTool_home_set_thermostat b ex) as Hb.
    cbv zeta in Ha, Hb. rewrite Ha, Hb. now rewrite H1, H2.
  - reflexivity.
  - reflexivity.
  - reflexivity.
Qed.

Lemma reads_declared_only_witness :
  callTool "home_lights_on" Sample.args Sample.failing
  = callTool "home_lights_on" (withThermostat 20 (Some "celsius") Sample.args)
      Sample.failing.
Proof.
  apply (reads_declared_only
           {| Catalogue.name := "home_lights_on";
              Catalogue.description :=
                "Turn on lights (requires 'Lights On' shortcut)";
              Catalogue.inputSchema :=
                {| Catalogue.type := "object";
                   Catalogue.properties :=
                     [ ("room",
                        Catalogue.stringProperty
                          "Room name (optional, e.g., 'living room', 'bedroom')") ];
                   Catalogue.required := [] |} |}
           Sample.args (withThermostat 20 (Some "celsius") Sample.args)
           Sample.failing).
  - unfold Catalogue.tools. simpl. auto 8.
  - intros k [<-|[]]. reflexivity.
Defined.

(** ** The copy of the handler in the test file *)




(** X22.  Only [home_control_device], [home_open] and [home_get_status]
    tell why a command failed: for the six quick actions and for the
    listing the response to a failure is the same whatever the error. *)
Theorem failure_detail_dropped (t : tool) (args : Arguments)
    (e e' : JsError) :
  In (toolName t)
    ["home_run_scene"; "home_list_shortcuts"; "home_lights_on";
     "home_lights_off"; "home_set_thermostat"; "home_lock_doors";
     "home_unlock_doors"] ->
  callTool (toolName t) args (fun _ => Throws e)
  = callTool (toolName t) args (fun _ => Throws e').
Proof.
  intros Ht.
  destruct (callTool_normal_form t args)
    as (cmd & good & bad & flag & _ & _ & H & _ & _ & _ & Hdrop).
  rewrite !H.
  assert (H1 : t <> home_open)
    by (intros ->; simpl in Ht; intuition discriminate).
  assert (H2 : t <> home_control_device)
    by (intros ->; simpl in Ht; intuition discriminate).
  assert (H3 : t <> home_get_status)
    by (intros ->; simpl in Ht; intuition discriminate).
  now rewrite (Hdrop H1 H2 H3 e e').
Qed.

Lemma failure_detail_dropped_witness :
  callTool "home_list_shortcuts" Sample.args
    (fun _ =>
       Throws {| message := "Command failed";
                 stderr := Some "Permission denied" |})
  = callTool "home_list_shortcuts" Sample.args
      (fun _ =>
         Throws {| message := "spawnSync /bin/sh ENOENT"; stderr := None |}).
Proof.
  apply (failure_detail_dropped home_list_shortcuts Sample.args
           {| message := "Command failed"; stderr := Some "Permission denied" |}
           {| message := "spawnSync /bin/sh ENOENT"; stderr := None |}).
  simpl. auto 8.
Defined.

(** * The request as it arrives *)

Lemma bind_ret {A B : Type} (a : A) (k : A -> M B) (ex : env) :
  bind (ret a) k ex = k a ex.
Proof. unfold bind, ret. now destruct (k a ex). Qed.

Lemma request_runShortcut_run (E : Engine.t) (n : string)
    (input : option string) (ex : env) :
  Request.runShortcut E (Some n) input ex
  = (match ex (shortcutCommand n input) with
     | Returns out => Ok (Engine.trim E out)
     | Throws e => Thrown (newError ("Shortcut error: " ++ diagnostic e))
     end,
     [shortcutCommand n input]).
Proof.
  unfold Request.runShortcut, tryCatch, bind, execSync, ret, throw.
  destruct (ex (shortcutCommand n input)); reflexivity.
Qed.

Lemma request_runShortcut_undefined (E : Engine.t) (input : option string)
    (ex : env) :
  Request.runShortcut E None input ex
  = (Thrown (newError ("Shortcut error: " ++ Engine.typeError E "replace")),
     []).
Proof. reflexivity. Qed.

Lemma request_runAppleScript_run (E : Engine.t) (script : string) (ex : env) :
  Request.runAppleScript E script ex
  = (match ex (appleScriptCommand script) with
     | Returns out => Ok (Engine.trim E out)
     | Throws e => Thrown (newError ("AppleScript error: " ++ diagnostic e))
     end,
     [appleScriptCommand script]).
Proof.
  unfold Request.runAppleScript, tryCatch, bind, execSync, ret, throw.
  destruct (ex (appleScriptCommand script)); reflexivity.
Qed.

Lemma request_quick_run (E : Engine.t) (n : string) (input : option string)
    (good advice : string) (ex : env) :
  tryCatch
    (tryCatch (_ <- Request.runShortcut E (Some n) input ;;
               ret (textResponse good))
              (fun _ => ret (textResponse advice)))
    (fun error => ret (errorResponse ("Error: " ++ message error))) ex
  = Request.outcomeOf ex (shortcutCommand n input) (fun _ => good) (fun _ => advice)
      None.
Proof.
  unfold Request.outcomeOf, tryCatch at 1 2. unfold bind.
  rewrite request_runShortcut_run.
  destruct (ex (shortcutCommand n input)); reflexivity.
Qed.

Lemma request_script_run (E : Engine.t) (good : string) (ex : env) :
  tryCatch
    (_ <- Request.runAppleScript E activateHome ;; ret (textResponse good))
    (fun error => ret (errorResponse ("Error: " ++ message error))) ex
  = Request.outcomeOf ex (appleScriptCommand activateHome) (fun _ => good)
      (fun e => "Error: AppleScript error: " ++ diagnostic e) (Some true).
Proof.
  unfold Request.outcomeOf, tryCatch, bind. rewrite request_runAppleScript_run.
  destruct (ex (appleScriptCommand activateHome)); reflexivity.
Qed.

(** A member read from arguments that are there. *)
Lemma tryCatch_member {A : Type} (E : Engine.t) (a : Request.Arguments)
    (what : string) (get : Request.Arguments -> A) (k : A -> M ToolResponse)
    (h : JsError -> M ToolResponse) (ex : env) :
  tryCatch (x <- Request.member E (Some a) what get ;; k x) h ex
  = tryCatch (k (get a)) h ex.
Proof. unfold tryCatch. cbn [Request.member]. now rewrite bind_ret. Qed.

(** A member read from [undefined]: the outer [catch] answers. *)
Lemma tryCatch_member_undefined {A : Type} (E : Engine.t) (what : string)
    (get : Request.Arguments -> A) (k : A -> M ToolResponse) (ex : env) :
  tryCatch (x <- Request.member E None what get ;; k x)
    (fun error => ret (errorResponse ("Error: " ++ message error))) ex
  = (Ok (errorResponse ("Error: " ++ Engine.typeError E what)), []).
Proof. reflexivity. Qed.

(** The text of the listing for the output [o]. *)
Lemma request_list_run (E : Engine.t) (f : option string) (ex : env) :
  let flt := option_map (Engine.toLowerCase E) f in
  tryCatch
    (tryCatch
       (result <- execSync "shortcuts list" ;;
        let shortcuts := Request.shortcutLines E result in
        let related := Request.homeRelated E flt shortcuts in
        if (List.length related =? 0)%nat
        then ret (textResponse (noneFoundText flt))
        else ret (textResponse
                    ("Available Shortcuts:" ++ nl ++ joinLines related)))
       (fun _ =>
          ret (errorResponse
                 "Error listing shortcuts. Make sure Shortcuts app is available.")))
    (fun error => ret (errorResponse ("Error: " ++ message error))) ex
  = Request.outcomeOf ex "shortcuts list"
      (fun o =>
         match Request.homeRelated E flt (Request.shortcutLines E o) with
         | [] => noneFoundText flt
         | related => "Available Shortcuts:" ++ nl ++ joinLines related
         end)
      (fun _ => "Error listing shortcuts. Make sure Shortcuts app is available.")
      (Some true).
Proof.
  intros flt. unfold Request.outcomeOf, tryCatch, bind, execSync.
  destruct (ex "shortcuts list") as [o|e]; [|reflexivity].
  destruct (Request.homeRelated E flt (Request.shortcutLines E o));
    reflexivity.
Qed.

Lemma request_control_run (E : Engine.t) (n : string) (action : option string)
    (ex : env) :
  tryCatch
    (tryCatch
       (_ <- Request.runShortcut E (Some n) action ;;
        ret (textResponse
               ("Executed shortcut: " ++ n
                ++ ifTruthy action (fun a => " with action: " ++ a)
                     EmptyString)))
       (fun error =>
          ret (errorResponse
                 ("Error running shortcut " ++ dq ++ n ++ dq ++ ": "
                  ++ message error))))
    (fun error => ret (errorResponse ("Error: " ++ message error))) ex
  = Request.outcomeOf ex (shortcutCommand n action)
      (fun _ =>
         "Executed shortcut: " ++ n
         ++ ifTruthy action (fun a => " with action: " ++ a) EmptyString)
      (fun e =>
         "Error running shortcut " ++ dq ++ n ++ dq ++ ": "
         ++ "Shortcut error: " ++ diagnostic e)
      (Some true).
Proof.
  unfold Request.outcomeOf, tryCatch at 1 2. unfold bind.
  rewrite request_runShortcut_run.
  destruct (ex (shortcutCommand n action)); reflexivity.
Qed.

Lemma noneFoundText_nonEmpty (flt : option string) :
  noneFoundText flt <> EmptyString.
Proof.
  unfold noneFoundText, ifTruthy. destruct flt as [[|c f]|]; discriminate.
Qed.

Ltac without_command :=
  left; do 2 eexists;
  split; [intros ex; reflexivity | split; [discriminate | auto]].

Ltac after_command run :=
  right; do 4 eexists;
  split;
  [ intros ex; unfold Request.handleCase;
    rewrite ?tryCatch_member; run
  | split;
    [ first [ now left | right; now left | right; right; now do 2 eexists ]
    | split; [auto | split; intros; try discriminate ] ] ].

Lemma handleRequest_normal_form (E : Engine.t) (name : string)
    (args : option Request.Arguments) :
  Ending.withoutCommand E name args \/ Ending.afterCommand E name args.
Proof.
  unfold Ending.withoutCommand, Ending.afterCommand, Request.handleRequest.
  destruct (toolOfName name) as [t|]; [|without_command].
  destruct t.
  - after_command ltac:(apply request_script_run).
  - destruct args as [a|]; [|without_command].
    destruct (Request.scene a) as [sc|] eqn:Hs.
    + after_command ltac:(rewrite Hs; apply request_quick_run).
    + left. do 2 eexists. split; [|split; [|left; reflexivity]].
      * intros ex. unfold Request.handleCase. rewrite tryCatch_member, Hs.
        reflexivity.
      * discriminate.
  - destruct args as [a|]; [|without_command].
    destruct (Request.shortcutName a) as [sn|] eqn:Hs.
    + after_command ltac:(rewrite Hs; apply request_control_run).
    + left. do 2 eexists. split; [|split; [|right; reflexivity]].
      * intros ex. unfold Request.handleCase.
        rewrite tryCatch_member, Hs. rewrite tryCatch_member. reflexivity.
      * discriminate.
  - destruct args as [a|]; [|without_command].
    after_command ltac:(unfold Request.listShortcuts;
                        rewrite tryCatch_member;
                        apply request_list_run).
    destruct (Request.homeRelated _ _ _);
      [apply noneFoundText_nonEmpty | discriminate].
  - destruct args as [a|]; [|without_command].
    after_command ltac:(unfold Request.lightsOn; rewrite tryCatch_member;
                        apply request_quick_run).
  - destruct args as [a|]; [|without_command].
    after_command ltac:(unfold Request.lightsOff; rewrite tryCatch_member;
                        apply request_quick_run).
  - destruct args as [a|]; [|without_command].
    after_command ltac:(unfold Request.setThermostat;
                        rewrite !tryCatch_member;
                        apply request_quick_run).
  - after_command ltac:(apply request_quick_run).
  - after_command ltac:(apply request_quick_run).
  - after_command ltac:(apply request_script_run).
Qed.

(** * The claims and properties stated on the request as it arrives *)

(** C7.  Every request, whatever the name, whether the arguments are
    there or not and whichever members they have, and whatever the command
    it runs does, is answered: the handler returns a response whose content
    is not empty and is made of text blocks with a text. *)
Theorem content_never_empty (E : Engine.t) (name : string)
    (args : option Request.Arguments) (ex : env) :
  exists (r : ToolResponse) (cmds : list string),
    Request.handleRequest E name args ex = (Ok r, cmds)
    /\ content r <> []
    /\ Forall (fun b => type b = "text" /\ text b <> EmptyString) (content r).
Proof.
  destruct (handleRequest_normal_form E name args)
    as [(txt & flag & H & Ht & _)
       |(cmd & good & bad & flag & H & _ & _ & Hg & Hb)].
  - rewrite H. do 2 eexists. split; [reflexivity|].
    split; [discriminate|]. repeat constructor. exact Ht.
  - rewrite H. unfold Request.outcomeOf. do 2 eexists.
    split; [reflexivity|]. destruct (ex cmd) as [o|e].
    + split; [discriminate|]. repeat constructor. apply Hg.
    + split; [discriminate|]. repeat constructor. apply Hb.
Qed.

Lemma request_set_thermostat (E : Engine.t) (a : Request.Arguments)
    (ex : env) :
  let t := Request.templateNumber (Request.temperature a) in
  let u := unitOrDefault (Request.unit a) in
  Request.handleRequest E "home_set_thermostat" (Some a) ex
  = Request.outcomeOf ex
      (shortcutCommand "Set Thermostat" (Some (t ++ " degrees " ++ u)))
      (fun _ => "Thermostat set to " ++ t ++ "°" ++ unitLetter u)
      (fun _ =>
         "To set thermostat to " ++ t ++ "°" ++ unitLetter u
         ++ ", create a Shortcut named " ++ dq ++ "Set Thermostat" ++ dq
         ++ " that controls your HomeKit thermostat." ++ siri ++ dq
         ++ "Set the thermostat to " ++ (t ++ " degrees " ++ u) ++ dq)
      None.
Proof.
  intros t u. unfold Request.handleRequest.
  change (toolOfName "home_set_thermostat") with (Some home_set_thermostat).
  unfold Request.handleCase, Request.setThermostat.
  rewrite !tryCatch_member. apply request_quick_run.
Qed.

Lemma thermostat_command (t u : string) :
  shortcutCommand "Set Thermostat" (Some (t ++ " degrees " ++ u))
  = "shortcuts run 'Set Thermostat' -i " ++ quote (t ++ " degrees " ++ u).
Proof.
  rewrite shortcutCommand_input; [reflexivity|]. destruct t; reflexivity.
Qed.

Lemma thermostat_argv (t u : string) :
  argv ("shortcuts run 'Set Thermostat' -i " ++ quote (t ++ " degrees " ++ u))
  = Some ["shortcuts"; "run"; "Set Thermostat"; "-i"; t ++ " degrees " ++ u].
Proof.
  rewrite <- thermostat_command.
  destruct (t ++ " degrees " ++ u) as [|c i] eqn:H.
  - destruct t; discriminate H.
  - apply argv_shortcutCommand_input.
Qed.

(** C4.  For [home_set_thermostat] the unit is [fahrenheit] when the
    argument is absent; the one command run passes the shortcut
    [Set Thermostat] the input [<temperature> degrees <unit>], the
    temperature being printed as a template literal prints the number; the
    answer prints the temperature in the same way, unchanged, followed by
    the degree sign and [C] or [F].  With temperature 72 and no unit the
    input is [72 degrees fahrenheit] and the text on success is
    [Thermostat set to 72°F]; with 22 and [celsius] it is
    [Thermostat set to 22°C]. *)
Theorem thermostat_formatting (E : Engine.t) (a : Request.Arguments)
    (n : Request.number) (u : option string) (ex : env) :
  let unit := match u with Some u => u | None => "fahrenheit" end in
  let payload := Request.print n ++ " degrees " ++ unit in
  let cmd := "shortcuts run 'Set Thermostat' -i " ++ quote payload in
  Request.handleRequest E "home_set_thermostat"
    (Some (Request.withThermostat n u a)) ex
  = (Ok {| content :=
             [ {| type := "text";
                  text :=
                    match ex cmd with
                    | Returns _ =>
                        "Thermostat set to " ++ Request.print n ++ "°"
                        ++ (if String.eqb unit "celsius" then "C" else "F")
                    | Throws _ =>
                        "To set thermostat to " ++ Request.print n ++ "°"
                        ++ (if String.eqb unit "celsius" then "C" else "F")
                        ++ ", create a Shortcut named " ++ dq
                        ++ "Set Thermostat" ++ dq
                        ++ " that controls your HomeKit thermostat."
                        ++ nl ++ nl ++ "Alternatively, you can say to Siri: "
                        ++ dq ++ "Set the thermostat to " ++ payload ++ dq
                    end |} ];
           isError := None |},
     [cmd])
  /\ argv cmd = Some ["shortcuts"; "run"; "Set Thermostat"; "-i"; payload]
  /\ (forall out : string,
        Request.handleRequest E "home_set_thermostat"
          (Some (Request.withThermostat (Request.Number "72") None a))
          (Sample.printing out)
        = (Ok {| content :=
                   [ {| type := "text"; text := "Thermostat set to 72°F" |} ];
                 isError := None |},
           ["shortcuts run 'Set Thermostat' -i '72 degrees fahrenheit'"]))
  /\ (forall out : string,
        Request.handleRequest E "home_set_thermostat"
          (Some (Request.withThermostat (Request.Number "22")
                   (Some "celsius") a))
          (Sample.printing out)
        = (Ok {| content :=
                   [ {| type := "text"; text := "Thermostat set to 22°C" |} ];
                 isError := None |},
           ["shortcuts run 'Set Thermostat' -i '22 degrees celsius'"])).
Proof.
  intros unit payload cmd. split; [|split; [|split]].
  - pose proof (request_set_thermostat E (Request.withThermostat n u a) ex)
      as H.
    cbv zeta in H.
    cbn [Request.withThermostat Request.temperature Request.unit
         Request.templateNumber] in H.
    rewrite thermostat_command in H. rewrite H.
    unfold Request.outcomeOf, textResponse, unitLetter, siri, unitOrDefault.
    fold unit. fold payload. fold cmd.
    destruct (ex cmd); rewrite ?append_assoc; reflexivity.
  - apply thermostat_argv.
  - intros out.
    exact (request_set_thermostat E
             (Request.withThermostat (Request.Number "72") None a)
             (Sample.printing out)).
  - intros out.
    exact (request_set_thermostat E
             (Request.withThermostat (Request.Number "22") (Some "celsius") a)
             (Sample.printing out)).
Qed.

(** C10.  For [home_set_thermostat] the unit is not checked: with any unit
    other than the lower-case [celsius] the answer, on success and on
    failure alike, prints the unit as [F], while the command still passes
    the caller's unit as it is, in [<temperature> degrees <unit>]. *)
Theorem thermostat_unit_not_validated (E : Engine.t)
    (a : Request.Arguments) (n : Request.number) (u : string) (ex : env) :
  u <> "celsius" ->
  let payload := Request.print n ++ " degrees " ++ u in
  let cmd := "shortcuts run 'Set Thermostat' -i " ++ quote payload in
  Request.handleRequest E "home_set_thermostat"
    (Some (Request.withThermostat n (Some u) a)) ex
  = (Ok {| content :=
             [ {| type := "text";
                  text :=
                    match ex cmd with
                    | Returns _ =>
                        "Thermostat set to " ++ Request.print n ++ "°F"
                    | Throws _ =>
                        "To set thermostat to " ++ Request.print n ++ "°F"
                        ++ ", create a Shortcut named " ++ dq
                        ++ "Set Thermostat" ++ dq
                        ++ " that controls your HomeKit thermostat."
                        ++ nl ++ nl ++ "Alternatively, you can say to Siri: "
                        ++ dq ++ "Set the thermostat to " ++ payload ++ dq
                    end |} ];
           isError := None |},
     [cmd])
  /\ argv cmd = Some ["shortcuts"; "run"; "Set Thermostat"; "-i"; payload].
Proof.
  intros Hne payload cmd. split; [|apply thermostat_argv].
  pose proof (request_set_thermostat E
                (Request.withThermostat n (Some u) a) ex) as H.
  cbv zeta in H.
  cbn [Request.withThermostat Request.temperature Request.unit
       Request.templateNumber unitOrDefault] in H.
  rewrite thermostat_command in H. rewrite H.
  unfold Request.outcomeOf, textResponse, unitLetter, siri.
  apply String.eqb_neq in Hne. rewrite Hne.
  fold payload. fold cmd.
  destruct (ex cmd); rewrite ?append_assoc; reflexivity.
Qed.

Lemma thermostat_unit_not_validated_witness :
  Request.handleRequest Engine.ascii "home_set_thermostat"
    (Some (Request.withThermostat (Request.Number "72") (Some "Celsius")
             Request.noArguments))
    Sample.succeeding
  = (Ok {| content :=
             [ {| type := "text"; text := "Thermostat set to 72°F" |} ];
           isError := None |},
     ["shortcuts run 'Set Thermostat' -i '72 degrees Celsius'"]).
Proof.
  apply (thermostat_unit_not_validated Engine.ascii Request.noArguments
           (Request.Number "72") "Celsius" Sample.succeeding).
  discriminate.
Defined.

Lemma request_list_shortcuts (E : Engine.t) (a : Request.Arguments)
    (ex : env) :
  let flt := option_map (Engine.toLowerCase E) (Request.filter a) in
  Request.handleRequest E "home_list_shortcuts" (Some a) ex
  = Request.outcomeOf ex "shortcuts list"
      (fun o =>
         match Request.homeRelated E flt (Request.shortcutLines E o) with
         | [] => noneFoundText flt
         | related => "Available Shortcuts:" ++ nl ++ joinLines related
         end)
      (fun _ => "Error listing shortcuts. Make sure Shortcuts app is available.")
      (Some true).
Proof.
  intros flt. unfold Request.handleRequest.
  change (toolOfName "home_list_shortcuts") with (Some home_list_shortcuts).
  unfold Request.handleCase, Request.listShortcuts.
  rewrite tryCatch_member. apply request_list_run.
Qed.



(** X3.  [runShortcut] and [runAppleScript] run their command line once and
    never again.  They return what the engine's [trim] makes of the
    output; when the command fails they throw a new error, without error
    stream, whose message is [Shortcut error: ] or [AppleScript error: ]
    followed by the text of the error stream of the failure when it has
    some, and by its message otherwise.  [runShortcut] with a name that is
    [undefined] runs nothing and throws the engine's message under the
    same prefix. *)
Theorem helpers_run (E : Engine.t) (name script : string)
    (input : option string) (ex : env) :
  let wrapped (prefix : string) (e : JsError) :=
    {| message :=
         prefix ++ match stderr e with
                   | Some (String c s) => String c s
                   | Some EmptyString => message e
                   | None => message e
                   end;
       stderr := None |} in
  Request.runShortcut E (Some name) input ex
  = (match ex (shortcutCommand name input) with
     | Returns out => Ok (Engine.trim E out)
     | Throws e => Thrown (wrapped "Shortcut error: " e)
     end,
     [shortcutCommand name input])
  /\ Request.runShortcut E None input ex
     = (Thrown {| message :=
                    "Shortcut error: " ++ Engine.typeError E "replace";
                  stderr := None |},
        [])
  /\ Request.runAppleScript E script ex
     = (match ex (appleScriptCommand script) with
        | Returns out => Ok (Engine.trim E out)
        | Throws e => Thrown (wrapped "AppleScript error: " e)
        end,
        [appleScriptCommand script]).
Proof.
  intros wrapped. split; [|split].
  - rewrite request_runShortcut_run.
    destruct (ex (shortcutCommand name input)) as [out|e]; [reflexivity|].
    unfold wrapped, newError, diagnostic.
    destruct (stderr e) as [[|c s]|]; reflexivity.
  - reflexivity.
  - rewrite request_runAppleScript_run.
    destruct (ex (appleScriptCommand script)) as [out|e]; [reflexivity|].
    unfold wrapped, newError, diagnostic.
    destruct (stderr e) as [[|c s]|]; reflexivity.
Qed.

(** X9.  A request makes the handler run at most one command, and which
    one is fixed by the name and the arguments alone: no outcome makes it
    run a second command or try again.  For a name outside the catalogue
    it runs none. *)
Theorem at_most_one_command (E : Engine.t) (name : string)
    (args : option Request.Arguments) :
  exists cmds : list string,
    (forall ex : env, snd (Request.handleRequest E name args ex) = cmds)
    /\ (List.length cmds <= 1)%nat
    /\ (~ In name toolNames -> cmds = []).
Proof.
  destruct (handleRequest_normal_form E name args)
    as [(txt & flag & H & _)|(cmd & good & bad & flag & H & _)].
  - exists []. split; [intros ex; now rewrite H|].
    split; [simpl; lia | reflexivity].
  - exists [cmd]. split; [intros ex; now rewrite H|].
    split; [simpl; lia|].
    intros Hn. apply toolOfName_None_iff in Hn.
    specialize (H (fun _ => Returns EmptyString)).
    unfold Request.handleRequest in H. rewrite Hn in H. discriminate H.
Qed.

(** X10.  Whatever strings the arguments hold, and whether they are there
    or not, a command line the handler runs is read by the shell as one
    simple command of literal words: the interpreter with [-e] and the
    fixed script, [shortcuts list], or [shortcuts run] with a name and
    possibly [-i] with an input.  No argument adds a word, an operator, a
    line or a second command. *)
Theorem commands_are_plain (E : Engine.t) (name : string)
    (args : option Request.Arguments) (ex : env) (cmd : string) :
  In cmd (snd (Request.handleRequest E name args ex)) ->
  argv cmd
  = Some ["osascript"; "-e";
          "tell application " ++ dq ++ "Home" ++ dq ++ " to activate"]
  \/ argv cmd = Some ["shortcuts"; "list"]
  \/ (exists n : string, argv cmd = Some ["shortcuts"; "run"; n])
  \/ (exists n i : string, argv cmd = Some ["shortcuts"; "run"; n; "-i"; i]).
Proof.
  intros Hin. apply argv_builtCommand.
  destruct (handleRequest_normal_form E name args)
    as [(txt & flag & H & _)|(c & good & bad & flag & H & Hc & _)];
    rewrite H in Hin.
  - destruct Hin.
  - destruct Hin as [<-|[]]. exact Hc.
Qed.

Lemma commands_are_plain_witness :
  argv (shortcutCommand "x'; rm -rf /; echo '" None)
  = Some ["osascript"; "-e";
          "tell application " ++ dq ++ "Home" ++ dq ++ " to activate"]
  \/ argv (shortcutCommand "x'; rm -rf /; echo '" None)
     = Some ["shortcuts"; "list"]
  \/ (exists n : string,
        argv (shortcutCommand "x'; rm -rf /; echo '" None)
        = Some ["shortcuts"; "run"; n])
  \/ (exists n i : string,
        argv (shortcutCommand "x'; rm -rf /; echo '" None)
        = Some ["shortcuts"; "run"; n; "-i"; i]).
Proof.
  apply (commands_are_plain Engine.ascii "home_run_scene"
           (Some Sample.hostileRequest) Sample.succeeding).
  left. reflexivity.
Defined.

(** X11.  An error flag has a cause: a response carries [isError: true]
    only when no command was run at all (the name is not in the catalogue,
    or the arguments or the shortcut name could not be read) or when the
    one command the handler ran has failed.  A command that returns never
    gives an error response. *)
Theorem error_has_cause (E : Engine.t) (name : string)
    (args : option Request.Arguments) (ex : env) (r : ToolResponse)
    (cmds : list string) :
  Request.handleRequest E name args ex = (Ok r, cmds) ->
  isError r = Some true ->
  cmds = []
  \/ (exists (cmd : string) (e : JsError), cmds = [cmd] /\ ex cmd = Throws e).
Proof.
  intros Hcall Herr.
  destruct (handleRequest_normal_form E name args)
    as [(txt & flag & H & _)|(cmd & good & bad & flag & H & _)];
    rewrite H in Hcall.
  - left. now injection Hcall.
  - right. unfold Request.outcomeOf in Hcall.
    injection Hcall as Hr Hc. subst r cmds.
    destruct (ex cmd) as [o|e] eqn:Ex; [discriminate Herr|].
    now exists cmd, e.
Qed.

Lemma error_has_cause_witness :
  @nil string = []
  \/ (exists (cmd : string) (e : JsError),
        [] = [cmd] /\ Sample.succeeding cmd = Throws e).
Proof.
  apply (error_has_cause Engine.ascii "home_lights_on" None
           Sample.succeeding
           (errorResponse
              "Error: Cannot read properties of undefined (reading 'room')")
           []).
  - reflexivity.
  - reflexivity.
Defined.

Lemma request_homeRelated_filter (E : Engine.t) (flt : option string)
    (shortcuts : list string) :
  exists keep : string -> bool,
    Request.homeRelated E flt shortcuts = List.filter keep shortcuts.
Proof.
  unfold Request.homeRelated, ifTruthy.
  destruct flt as [[|c f]|]; eexists; reflexivity.
Qed.

(** X14.  The lines the listing keeps are a selection of the pieces of the
    output, in their order; [trim] leaves something of each and none holds a
    line feed.  When some line is kept, splitting the text of the answer at
    line feeds gives the header followed by exactly the lines kept. *)
Theorem listing_lines (E : Engine.t) (a : Request.Arguments) (ex : env)
    (out : string) :
  ex "shortcuts list" = Returns out ->
  let kept :=
    Request.homeRelated E
      (option_map (Engine.toLowerCase E) (Request.filter a))
      (Request.shortcutLines E out) in
  (exists keep : string -> bool, kept = List.filter keep (splitLines out))
  /\ (forall l : string,
        In l kept ->
        In l (splitLines out)
        /\ Engine.trim E l <> EmptyString
        /\ occurrences newline l = 0)
  /\ (kept <> [] ->
      exists txt : string,
        Request.handleRequest E "home_list_shortcuts" (Some a) ex
        = (Ok {| content := [ {| type := "text"; text := txt |} ];
                 isError := None |},
           ["shortcuts list"])
        /\ splitLines txt = "Available Shortcuts:" :: kept).
Proof.
  intros Hex kept.
  destruct (request_homeRelated_filter E
              (option_map (Engine.toLowerCase E) (Request.filter a))
              (Request.shortcutLines E out)) as [keep Hkeep].
  fold kept in Hkeep.
  assert (Hsel : kept
                 = List.filter
                     (fun l => nonEmpty (Engine.trim E l) && keep l)
                     (splitLines out)).
  { rewrite Hkeep. unfold Request.shortcutLines. apply filter_filter. }
  assert (Hin : forall l : string,
             In l kept ->
             In l (splitLines out)
             /\ Engine.trim E l <> EmptyString
             /\ occurrences newline l = 0).
  { intros l Hl. rewrite Hsel in Hl. apply filter_In in Hl as [Hl Hb].
    apply andb_true_iff in Hb as [Hb _].
    split; [exact Hl|]. split.
    - intros H0. rewrite H0 in Hb. discriminate Hb.
    - now apply (splitLinesFrom_no_newline out EmptyString l). }
  split; [eexists; exact Hsel|]. split; [exact Hin|].
  intros Hne. rewrite request_list_shortcuts. unfold Request.outcomeOf.
  rewrite Hex. fold kept.
  destruct kept as [|x xs] eqn:Ek; [contradiction|].
  eexists. split; [reflexivity|].
  change ("Available Shortcuts:" ++ nl ++ joinLines (x :: xs))
    with (joinLines ("Available Shortcuts:" :: x :: xs)).
  apply splitLines_joinLines. constructor; [reflexivity|].
  apply Forall_forall. intros l Hl. now apply Hin.
Qed.

Lemma listing_lines_witness :
  exists keep : string -> bool,
    Request.homeRelated Engine.ascii
      (option_map (Engine.toLowerCase Engine.ascii)
         (Request.filter Request.noArguments))
      (Request.shortcutLines Engine.ascii
         ("Lights On" ++ nl ++ " " ++ nl ++ "Unrelated"))
    = List.filter keep
        (splitLines ("Lights On" ++ nl ++ " " ++ nl ++ "Unrelated")).
Proof.
  apply (listing_lines Engine.ascii Request.noArguments
           (Sample.printing ("Lights On" ++ nl ++ " " ++ nl ++ "Unrelated"))
           ("Lights On" ++ nl ++ " " ++ nl ++ "Unrelated")).
  reflexivity.
Defined.

Lemma keywords_disjunction (t : string) :
  includes t "light" || includes t "home" || includes t "scene"
  || includes t "lock" || includes t "thermostat" || includes t "door"
  || includes t "room"
  = existsb (includes t) homeKeywords.
Proof.
  unfold homeKeywords. cbn [existsb].
  destruct (includes t "light"), (includes t "home"), (includes t "scene"),
    (includes t "lock"), (includes t "thermostat"), (includes t "door"),
    (includes t "room"); reflexivity.
Qed.

Ltac server_case T :=
  unfold Request.handleRequest;
  let n := eval cbv in (toolName T) in
  change (toolOfName n) with (Some T);
  unfold Request.handleCase, Request.lightsOn, Request.lightsOff,
    Request.listShortcuts;
  rewrite ?tryCatch_member.

(** X20.  For every name but [home_set_thermostat], listed or not, the
    handler written out in the test file runs the same command and gives
    the same response as the handler of the server gives for the same
    arguments; for a request without arguments it answers as the server
    answers for the empty object. *)
Theorem test_copy_agrees (E : Engine.t) (name : string)
    (args : option Request.Arguments) (ex : env) :
  name <> "home_set_thermostat" ->
  TestFile.handleToolCall E name args ex
  = Request.handleRequest E name
      (Some match args with
            | Some a => a
            | None => Request.noArguments
            end)
      ex.
Proof.
  intros Hn. unfold TestFile.handleToolCall.
  set (a := match args with Some a => a | None => Request.noArguments end).
  destruct (String.eqb_spec name "home_open") as [->|N1].
  { server_case home_open. reflexivity. }
  destruct (String.eqb_spec name "home_run_scene") as [->|N2].
  { server_case home_run_scene. reflexivity. }
  destruct (String.eqb_spec name "home_control_device") as [->|N3].
  { server_case home_control_device. reflexivity. }
  destruct (String.eqb_spec name "home_list_shortcuts") as [->|N4].
  { server_case home_list_shortcuts.
    unfold tryCatch, bind, execSync.
    destruct (ex "shortcuts list") as [o|e]; [|reflexivity].
    unfold Request.homeRelated, Request.shortcutLines, noneFoundText.
    rewrite (filter_ext _ _
               (fun s => keywords_disjunction (Engine.toLowerCase E s))).
    reflexivity. }
  destruct (String.eqb_spec name "home_lights_on") as [->|N5].
  { server_case home_lights_on. reflexivity. }
  destruct (String.eqb_spec name "home_lights_off") as [->|N6].
  { server_case home_lights_off. reflexivity. }
  destruct (String.eqb_spec name "home_set_thermostat") as [->|N7].
  { contradiction. }
  destruct (String.eqb_spec name "home_lock_doors") as [->|N8].
  { server_case home_lock_doors. reflexivity. }
  destruct (String.eqb_spec name "home_unlock_doors") as [->|N9].
  { server_case home_unlock_doors. reflexivity. }
  destruct (String.eqb_spec name "home_get_status") as [->|N10].
  { server_case home_get_status. reflexivity. }
  unfold Request.handleRequest. rewrite toolOfName_None; [reflexivity|].
  unfold toolNames. simpl. intuition congruence.
Qed.

Lemma test_copy_agrees_witness :
  TestFile.handleToolCall Engine.ascii "home_lights_on" None Sample.failing
  = Request.handleRequest Engine.ascii "home_lights_on"
      (Some Request.noArguments) Sample.failing.
Proof.
  apply (test_copy_agrees Engine.ascii "home_lights_on" None Sample.failing).
  discriminate.
Defined.

(** X15.  The filter of the listing goes by letters, not by their case:
    two filters to which the engine gives the same lower-case form get the
    same answer, the echo of the filter in [No shortcuts found matching: ]
    included. *)
Theorem listing_filter_case (E : Engine.t) (a : Request.Arguments)
    (ex : env) (f f' : string) :
  Engine.toLowerCase E f = Engine.toLowerCase E f' ->
  Request.handleRequest E "home_list_shortcuts"
    (Some (Request.withFilter (Some f) a)) ex
  = Request.handleRequest E "home_list_shortcuts"
      (Some (Request.withFilter (Some f') a)) ex.
Proof.
  intros H. rewrite !request_list_shortcuts.
  cbn [Request.withFilter Request.filter option_map]. now rewrite H.
Qed.

Lemma listing_filter_case_witness :
  Request.handleRequest Engine.ascii "home_list_shortcuts"
    (Some (Request.withFilter (Some "LIGHTS") Request.noArguments))
    (Sample.printing "Lights On")
  = Request.handleRequest Engine.ascii "home_list_shortcuts"
      (Some (Request.withFilter (Some "lights") Request.noArguments))
      (Sample.printing "Lights On").
Proof.
  apply (listing_filter_case Engine.ascii Request.noArguments
           (Sample.printing "Lights On") "LIGHTS" "lights").
  reflexivity.
Defined.
